(** * muspy.music: the [Music] container, embedded and verified

    A shallow embedding of [src/muspy/music.py].  The methods of class
    [Music] are Rocq functions over a record of the container's nine
    attributes.  A method that can raise returns a [result]; a method that
    mutates the container returns the container as it leaves it; [append],
    which does both, returns the container and the outcome.

    The modules [muspy.classes], [muspy.utils], [muspy.io] and
    [muspy.representations] are imported by [music.py] and are not part of
    the sources.  What [music.py] needs from them is taken as an interface
    (the type classes [Entities], [TrackAPI] and [Converters]), and the
    properties of the methods of [Music] are proved for every
    implementation of it.  Where a property depends on what a missing
    function computes, the function is modelled from the specification,
    and the definition says so.

    Times are integers (time steps).  Python strings are modelled as
    [string], that is as ASCII text. *)

From Stdlib Require Import ZArith List String Ascii Bool Lia.
From Stdlib Require Import Sorted Permutation.
Import ListNotations.

Local Open Scope string_scope.
Local Open Scope Z_scope.

(** ** Exceptions and results *)

(** The exceptions this module raises or lets through, with their message. *)
Inductive exn : Type :=
| TypeError (msg : string)
| ValueError (msg : string)
| IndexError (msg : string).

(** The outcome of a call: a returned value, or a raised exception. *)
Inductive result (A : Type) : Type :=
| Ok (a : A)
| Raise (e : exn).

Arguments Ok {A} a.
Arguments Raise {A} e.

Definition bind {A B : Type} (c : result A) (k : A -> result B) : result B :=
  match c with
  | Ok a => k a
  | Raise e => Raise e
  end.

Notation "x <- c ;; k" := (bind c (fun x => k))
  (at level 61, c at next level, right associativity).

Definition returns {A : Type} (c : result A) : bool :=
  match c with
  | Ok _ => true
  | Raise _ => false
  end.

(** [[f(x) for x in l]]: the calls are made from left to right and the
    first exception ends the comprehension. *)
Fixpoint comprehension {A B : Type} (f : A -> result B) (l : list A)
  : result (list B) :=
  match l with
  | [] => Ok []
  | x :: l' =>
      y <- f x ;;
      ys <- comprehension f l' ;;
      Ok (y :: ys)
  end.

(** ** Python built-ins used by [music.py] *)

(** [max(a, b, ...)] over at least one argument. *)
Definition py_max (a : Z) (rest : list Z) : Z := fold_left Z.max rest a.

(** [max(l)] on a list: a [ValueError] on the empty list. *)
Definition py_max_list (l : list Z) : result Z :=
  match l with
  | [] => Raise (ValueError "max() arg is an empty sequence")
  | a :: rest => Ok (py_max a rest)
  end.

(** [l[-1]]: an [IndexError] on the empty list. *)
Fixpoint py_last {A : Type} (l : list A) : result A :=
  match l with
  | [] => Raise (IndexError "list index out of range")
  | [x] => Ok x
  | _ :: l' => py_last l'
  end.

(** [l.sort(key=key)].  Python's sort is stable: the result is the list
    ordered by key in which elements of equal key keep their relative
    order.  Inserting the elements from the right, each one in front of the
    first element whose key is not smaller, builds that list. *)
Fixpoint insert_by {A : Type} (key : A -> Z) (x : A) (l : list A) : list A :=
  match l with
  | [] => [x]
  | y :: l' => if key x <=? key y then x :: l else y :: insert_by key x l'
  end.

Definition list_sort {A : Type} (key : A -> Z) (l : list A) : list A :=
  fold_right (insert_by key) [] l.

(** A list is non-decreasing by [key] when every element's key is at most
    the key of every element after it. *)
Definition non_decreasing {A : Type} (key : A -> Z) (l : list A) : Prop :=
  StronglySorted (fun x y => key x <= key y) l.

(** [c.lower()] on one ASCII character. *)
Definition ascii_lower (c : ascii) : ascii :=
  let n := nat_of_ascii c in
  if ((65 <=? n) && (n <=? 90))%nat then ascii_of_nat (n + 32) else c.

(** [s.lower()]. *)
Fixpoint str_lower (s : string) : string :=
  match s with
  | EmptyString => EmptyString
  | String c s' => String (ascii_lower c) (str_lower s')
  end.

(** [x in t] for a tuple [t] of strings: equality with one of its items. *)
Definition in_tuple (x : string) (t : list string) : bool :=
  existsb (String.eqb x) t.

(** [x in s] for a string [s]: [x] occurs in [s] as a substring. *)
Fixpoint in_str (x s : string) : bool :=
  String.prefix x s ||
  match s with
  | EmptyString => false
  | String _ s' => in_str x s'
  end.

(** ** Python classes *)

(** The classes an object met by [music.py] can have: [object], a built-in
    class such as [int] or [str], the classes of muspy, and a class the
    caller defines with [class name(base, ...)], from one base or from
    several. *)
#[local] Set Warnings "-register-all".
Inductive PyClass : Type :=
| KObject
| KBuiltin (name : string)
| KBase
| KMusic
| KMetaData
| KTimingInfo
| KNote
| KTimeSignature
| KKeySignature
| KTempo
| KLyric
| KAnnotation
| KTrack
| KUser (name : string) (bases : list PyClass).

Definition PyClass_eq_dec : forall c d : PyClass, {c = d} + {c <> d}.
Proof.
  fix eq_dec 1. intros c d.
  decide equality; try apply string_dec. apply (list_eq_dec eq_dec).
Defined.

Definition PyClass_eqb (c d : PyClass) : bool :=
  if PyClass_eq_dec c d then true else false.

(** Modelled from the spec: the class statements of [muspy.classes], which
    is not among the sources.  [class Music(Base)] is in [music.py]; for
    the other classes the spec says that they are mutually exclusive
    subtypes, so each one derives from [Base] alone.  [ancestors c] lists
    the classes of [c.__mro__]: the class, then the ancestors of each of
    its bases, then [object].  A class may stand there more than once and
    the order is not that of [__mro__]: [issubclass] asks only whether a
    class is there. *)
Fixpoint ancestors (c : PyClass) : list PyClass :=
  c :: match c with
       | KObject => []
       | KBuiltin _ | KBase => [KObject]
       | KUser _ bases => flat_map ancestors bases ++ [KObject]
       | _ => [KBase; KObject]
       end.

(** [issubclass(c, d)]: [d] is in [c.__mro__]. *)
Definition issubclass (c d : PyClass) : bool :=
  existsb (PyClass_eqb d) (ancestors c).

(** [str(c)] for a class [c], as [format] prints it.  A user class and a
    built-in class carry their printed name. *)
Definition class_name (c : PyClass) : string :=
  match c with
  | KObject => "object"
  | KBuiltin name => name
  | KBase => "muspy.classes.Base"
  | KMusic => "muspy.music.Music"
  | KMetaData => "muspy.classes.MetaData"
  | KTimingInfo => "muspy.classes.TimingInfo"
  | KNote => "muspy.classes.Note"
  | KTimeSignature => "muspy.classes.TimeSignature"
  | KKeySignature => "muspy.classes.KeySignature"
  | KTempo => "muspy.classes.Tempo"
  | KLyric => "muspy.classes.Lyric"
  | KAnnotation => "muspy.classes.Annotation"
  | KTrack => "muspy.classes.Track"
  | KUser name _ => name
  end.

Definition class_str (c : PyClass) : string :=
  "<class '" ++ class_name c ++ "'>".

(** The six classes [append] tests its argument against, in the order of
    the tests. *)
Definition appendable : list PyClass :=
  [KTimeSignature; KKeySignature; KTempo; KLyric; KAnnotation; KTrack].

(** ** What [music.py] imports from [muspy.classes] *)

(** The entity classes, as [music.py] uses them: the attributes it reads
    ([x.start], [x.time]), the constructors it calls with no argument
    ([MetaData()], [TimingInfo()]) and the method [validate], which returns
    or raises. *)
Class Entities : Type := {
  TimeSignature : Type;
  KeySignature : Type;
  Tempo : Type;
  Lyric : Type;
  Annotation : Type;
  MetaData : Type;
  TimingInfo : Type;
  TimeSignature_start : TimeSignature -> Z;
  TimeSignature_time : TimeSignature -> Z;
  KeySignature_time : KeySignature -> Z;
  Tempo_time : Tempo -> Z;
  Lyric_time : Lyric -> Z;
  Annotation_time : Annotation -> Z;
  MetaData_init : MetaData;
  TimingInfo_init : TimingInfo;
  TimeSignature_validate : TimeSignature -> result unit;
  KeySignature_validate : KeySignature -> result unit;
  Tempo_validate : Tempo -> result unit;
  Lyric_validate : Lyric -> result unit;
  Annotation_validate : Annotation -> result unit
}.

(** Class [Track], as [music.py] uses it: the four methods it calls on
    every track.  [get_active_length] can raise; the three mutators return
    the track as they leave it. *)
Class TrackAPI : Type := {
  Track : Type;
  Track_get_active_length : bool -> Track -> result Z;
  Track_remove_invalid : Track -> Track;
  Track_sort : Track -> Track;
  Track_transpose : Z -> Track -> Track
}.

Section Container.

Context {E : Entities} {T : TrackAPI}.

(** ** The container *)

(** An instance of [Music]: its nine attributes, in the order of
    [_attributes].  The container owns its sequences and its tracks: no
    list and no track is shared with another attribute or container. *)
Record Music : Type := mkMusic {
  timing : TimingInfo;
  time_signatures : list TimeSignature;
  key_signatures : list KeySignature;
  tempos : list Tempo;
  downbeats : list Z;
  lyrics : list Lyric;
  annotations : list Annotation;
  tracks : list Track;
  meta_data : MetaData
}.

Definition or_default {A : Type} (arg : option A) (default : A) : A :=
  match arg with
  | Some a => a
  | None => default
  end.

(** [Music.__init__]: every argument is optional, [None] by default. *)
Definition Music_init
  (meta_data0 : option MetaData) (timing_info : option TimingInfo)
  (time_signatures0 : option (list TimeSignature))
  (key_signatures0 : option (list KeySignature))
  (tempos0 : option (list Tempo)) (downbeats0 : option (list Z))
  (lyrics0 : option (list Lyric)) (annotations0 : option (list Annotation))
  (tracks0 : option (list Track)) : Music :=
  {| meta_data := or_default meta_data0 MetaData_init;
     timing := or_default timing_info TimingInfo_init;
     time_signatures := or_default time_signatures0 [];
     key_signatures := or_default key_signatures0 [];
     tempos := or_default tempos0 [];
     downbeats := or_default downbeats0 [];
     lyrics := or_default lyrics0 [];
     annotations := or_default annotations0 [];
     tracks := or_default tracks0 [] |}.

(** Assignments to one attribute. *)
Definition with_time_signatures (l : list TimeSignature) (self : Music) : Music :=
  mkMusic (timing self) l (key_signatures self) (tempos self)
    (downbeats self) (lyrics self) (annotations self) (tracks self)
    (meta_data self).

Definition with_key_signatures (l : list KeySignature) (self : Music) : Music :=
  mkMusic (timing self) (time_signatures self) l (tempos self)
    (downbeats self) (lyrics self) (annotations self) (tracks self)
    (meta_data self).

Definition with_tempos (l : list Tempo) (self : Music) : Music :=
  mkMusic (timing self) (time_signatures self) (key_signatures self) l
    (downbeats self) (lyrics self) (annotations self) (tracks self)
    (meta_data self).

Definition with_lyrics (l : list Lyric) (self : Music) : Music :=
  mkMusic (timing self) (time_signatures self) (key_signatures self)
    (tempos self) (downbeats self) l (annotations self) (tracks self)
    (meta_data self).

Definition with_annotations (l : list Annotation) (self : Music) : Music :=
  mkMusic (timing self) (time_signatures self) (key_signatures self)
    (tempos self) (downbeats self) (lyrics self) l (tracks self)
    (meta_data self).

Definition with_tracks (l : list Track) (self : Music) : Music :=
  mkMusic (timing self) (time_signatures self) (key_signatures self)
    (tempos self) (downbeats self) (lyrics self) (annotations self) l
    (meta_data self).

(** [Music.reset] *)
Definition Music_reset (self : Music) : Music :=
  {| meta_data := MetaData_init;
     timing := TimingInfo_init;
     time_signatures := [];
     key_signatures := [];
     tempos := [];
     downbeats := downbeats self;
     lyrics := [];
     annotations := [];
     tracks := [] |}.

(** Modelled from the spec: [muspy.utils.remove_invalid_from_list], which
    is not among the sources.  It rebuilds the list, keeping the elements
    whose [validate()] succeeds; an element whose [validate()] raises is
    left out and the exception goes no further. *)
Definition remove_invalid_from_list {A : Type} (validate : A -> result unit)
  (l : list A) : list A :=
  filter (fun x => returns (validate x)) l.

(** [Music.remove_invalid] *)
Definition Music_remove_invalid (self : Music) : Music :=
  {| meta_data := meta_data self;
     timing := timing self;
     time_signatures :=
       remove_invalid_from_list TimeSignature_validate (time_signatures self);
     key_signatures :=
       remove_invalid_from_list KeySignature_validate (key_signatures self);
     tempos := remove_invalid_from_list Tempo_validate (tempos self);
     downbeats := downbeats self;
     lyrics := remove_invalid_from_list Lyric_validate (lyrics self);
     annotations :=
       remove_invalid_from_list Annotation_validate (annotations self);
     tracks := map Track_remove_invalid (tracks self) |}.

(** [Music.get_active_length] *)
Definition Music_get_active_length (is_sorted : bool) (self : Music)
  : result Z :=
  lengths <- comprehension (Track_get_active_length is_sorted) (tracks self) ;;
  py_max_list lengths.

(** [Music.get_length].  The arguments of [max] are evaluated from left
    to right, so the first one that raises decides the exception. *)
Definition Music_get_length (is_sorted : bool) (self : Music) : result Z :=
  if is_sorted then
    active <- Music_get_active_length is_sorted self ;;
    time_sign <- py_last (time_signatures self) ;;
    key_sign <- py_last (key_signatures self) ;;
    tempo <- py_last (tempos self) ;;
    lyric <- py_last (lyrics self) ;;
    annotation <- py_last (annotations self) ;;
    Ok (py_max active
          [TimeSignature_time time_sign; KeySignature_time key_sign;
           Tempo_time tempo; Lyric_time lyric; Annotation_time annotation])
  else
    active <- Music_get_active_length is_sorted self ;;
    m1 <- py_max_list (map TimeSignature_time (time_signatures self)) ;;
    m2 <- py_max_list (map KeySignature_time (key_signatures self)) ;;
    m3 <- py_max_list (map Tempo_time (tempos self)) ;;
    m4 <- py_max_list (map Lyric_time (lyrics self)) ;;
    m5 <- py_max_list (map Annotation_time (annotations self)) ;;
    Ok (py_max active [m1; m2; m3; m4; m5]).

(** [Music.sort] *)
Definition Music_sort (self : Music) : Music :=
  {| meta_data := meta_data self;
     timing := timing self;
     time_signatures := list_sort TimeSignature_start (time_signatures self);
     key_signatures := list_sort KeySignature_time (key_signatures self);
     tempos := list_sort Tempo_time (tempos self);
     downbeats := downbeats self;
     lyrics := list_sort Lyric_time (lyrics self);
     annotations := list_sort Annotation_time (annotations self);
     tracks := map Track_sort (tracks self) |}.

(** [Music.transpose] *)
Definition Music_transpose (semitone : Z) (self : Music) : Music :=
  with_tracks (map (Track_transpose semitone) (tracks self)) self.

(** ** Objects handed to [append] *)

(** What an object carries as an instance of a class: the attributes of
    the class when it is an instance of it ([held]), and nothing when it is
    not. *)
Definition part (A : Type) (held : bool) : Type := if held then A else unit.

Definition read_part {A : Type} {held : bool} : part A held -> option A :=
  match held with
  | true => fun x => Some x
  | false => fun _ => None
  end.

(** A Python object: its class, and what it carries as an instance of
    each of the six classes [append] tests.  An object whose class derives
    from several of them, as an instance of
    [class LyricTempo(Lyric, Tempo)] does, carries a part for each. *)
Record PyObj : Type := mkObj {
  type_of : PyClass;
  TimeSignature_part : part TimeSignature (issubclass type_of KTimeSignature);
  KeySignature_part : part KeySignature (issubclass type_of KKeySignature);
  Tempo_part : part Tempo (issubclass type_of KTempo);
  Lyric_part : part Lyric (issubclass type_of KLyric);
  Annotation_part : part Annotation (issubclass type_of KAnnotation);
  Track_part : part Track (issubclass type_of KTrack)
}.

(** [isinstance(obj, c)], where [type_of obj] is [type(obj)]. *)
Definition isinstance (obj : PyObj) (c : PyClass) : bool :=
  issubclass (type_of obj) c.

(** [obj] seen as an instance of one of the six classes: there is such a
    view exactly when [isinstance] holds for the class. *)
Definition as_TimeSignature (obj : PyObj) : option TimeSignature :=
  read_part (TimeSignature_part obj).

Definition as_KeySignature (obj : PyObj) : option KeySignature :=
  read_part (KeySignature_part obj).

Definition as_Tempo (obj : PyObj) : option Tempo :=
  read_part (Tempo_part obj).

Definition as_Lyric (obj : PyObj) : option Lyric :=
  read_part (Lyric_part obj).

Definition as_Annotation (obj : PyObj) : option Annotation :=
  read_part (Annotation_part obj).

Definition as_Track (obj : PyObj) : option Track :=
  read_part (Track_part obj).

(** The first of the six classes, in the order of the tests of [append],
    that the object is an instance of. *)
Definition first_match (obj : PyObj) : option PyClass :=
  find (isinstance obj) appendable.

(** The message of the [TypeError] that [append] raises. *)
Definition append_message (obj : PyObj) : string :=
  "Expect TimeSignature, KeySignature, Tempo, Note, Lyric, "
  ++ "Annotation or Track object, but got " ++ class_str (type_of obj) ++ ".".

(** [Music.append]: the container as the call leaves it, and the outcome
    of the call.  The tests are made in the order of the source and the
    first that holds decides. *)
Definition Music_append (obj : PyObj) (self : Music) : Music * result unit :=
  match as_TimeSignature obj with
  | Some x => (with_time_signatures (time_signatures self ++ [x]) self, Ok tt)
  | None =>
  match as_KeySignature obj with
  | Some x => (with_key_signatures (key_signatures self ++ [x]) self, Ok tt)
  | None =>
  match as_Tempo obj with
  | Some x => (with_tempos (tempos self ++ [x]) self, Ok tt)
  | None =>
  match as_Lyric obj with
  | Some x => (with_lyrics (lyrics self ++ [x]) self, Ok tt)
  | None =>
  match as_Annotation obj with
  | Some x => (with_annotations (annotations self ++ [x]) self, Ok tt)
  | None =>
  match as_Track obj with
  | Some x => (with_tracks (tracks self ++ [x]) self, Ok tt)
  | None => (self, Raise (TypeError (append_message obj)))
  end end end end end end.

(** ** Conversions *)

(** What [music.py] imports from [muspy.io] and [muspy.representations]:
    the converters, each of which returns its result or raises. *)
Class Converters : Type := {
  Representation : Type;
  PrettyMIDI : Type;
  Multitrack : Type;
  to_pretty_midi : Music -> result PrettyMIDI;
  to_pypianoroll : Music -> result Multitrack;
  to_event_representation : Music -> result Representation;
  to_note_representation : Music -> result Representation;
  to_pianoroll_representation : Music -> result Representation;
  to_representation : Music -> string -> result Representation
}.

Context {C : Converters}.

(** The values the conversion methods return. *)
Inductive PyValue : Type :=
| VNone
| VRepresentation (r : Representation)
| VPrettyMIDI (p : PrettyMIDI)
| VMultitrack (m : Multitrack).

(** [return f(...)]: the value of the call, or its exception. *)
Definition return_ {A : Type} (inj : A -> PyValue) (c : result A)
  : result PyValue :=
  a <- c ;; Ok (inj a).

(** A call as a statement, then the end of the function body: the value
    of the call is dropped and the method returns [None]. *)
Definition call_then_end {A : Type} (c : result A) : result PyValue :=
  _ <- c ;; Ok VNone.

(** [Music.to] *)
Definition Music_to (target : string) (self : Music) : result PyValue :=
  if in_tuple (str_lower target)
       ["event"; "event-based"; "note"; "note-based"; "pianoroll";
        "piano-roll"]
  then return_ VRepresentation (to_representation self target)
  else if in_str (str_lower target) "pretty_midi"
  then return_ VPrettyMIDI (to_pretty_midi self)
  else if in_str (str_lower target) "pypianoroll"
  then return_ VMultitrack (to_pypianoroll self)
  else Raise (ValueError ("Unsupported target : " ++ target ++ ".")).

(** [Music.to_representation] *)
Definition Music_to_representation (target : string) (self : Music)
  : result PyValue :=
  return_ VRepresentation (to_representation self target).

(** [Music.to_event_representation] *)
Definition Music_to_event_representation (self : Music) : result PyValue :=
  call_then_end (to_event_representation self).

(** [Music.to_note_representation] *)
Definition Music_to_note_representation (self : Music) : result PyValue :=
  call_then_end (to_note_representation self).

(** [Music.to_pianoroll_representation] *)
Definition Music_to_pianoroll_representation (self : Music) : result PyValue :=
  call_then_end (to_pianoroll_representation self).

(** [Music.to_pretty_midi] *)
Definition Music_to_pretty_midi (self : Music) : result PyValue :=
  call_then_end (to_pretty_midi self).

(** [Music.to_pypianoroll] *)
Definition Music_to_pypianoroll (self : Music) : result PyValue :=
  call_then_end (to_pypianoroll self).

End Container.

(** ** Tracks, modelled from the specification *)

(** Modelled from the spec: class [Note] of [muspy.classes], which is not
    among the sources.  The spec describes a note by its onset, pitch,
    duration and velocity; the note ends at onset plus duration. *)
Record Note : Type := mkNote {
  Note_time : Z;
  Note_duration : Z;
  Note_pitch : Z;
  Note_velocity : Z
}.

Definition Note_end (n : Note) : Z := Note_time n + Note_duration n.

(** The method [validate] of a note, which returns or raises. *)
Class NoteAPI : Type := {
  Note_validate : Note -> result unit
}.

Section ModelledTrack.

Context {E : Entities} {N : NoteAPI}.

(** Modelled from the spec: class [Track] of [muspy.classes], which is not
    among the sources: an ordered collection of notes with its own lyrics
    and annotations. *)
Record TrackModel : Type := mkTrack {
  notes : list Note;
  track_lyrics : list Lyric;
  track_annotations : list Annotation
}.

(** Modelled from the spec: [Track.get_active_length].  The active length
    of a track is the time at which its last note ends.  The spec gives no
    second definition for a sorted track, so the latest note end is the
    value in both modes; a track with no note has no active length. *)
Definition TrackModel_get_active_length (is_sorted : bool) (self : TrackModel)
  : result Z :=
  py_max_list (map Note_end (notes self)).

(** Modelled from the spec: [Track.remove_invalid] prunes the track's own
    invalid notes, lyrics and annotations. *)
Definition TrackModel_remove_invalid (self : TrackModel) : TrackModel :=
  {| notes := remove_invalid_from_list Note_validate (notes self);
     track_lyrics := remove_invalid_from_list Lyric_validate (track_lyrics self);
     track_annotations :=
       remove_invalid_from_list Annotation_validate (track_annotations self) |}.

(** Modelled from the spec: [Track.sort] sorts the track's own notes,
    lyrics and annotations with respect to event time. *)
Definition TrackModel_sort (self : TrackModel) : TrackModel :=
  {| notes := list_sort Note_time (notes self);
     track_lyrics := list_sort Lyric_time (track_lyrics self);
     track_annotations := list_sort Annotation_time (track_annotations self) |}.

(** Modelled from the spec: [Track.transpose] shifts every note's pitch by
    the given signed number of semitones, with no bounds checking. *)
Definition Note_transpose (semitone : Z) (n : Note) : Note :=
  {| Note_time := Note_time n;
     Note_duration := Note_duration n;
     Note_pitch := Note_pitch n + semitone;
     Note_velocity := Note_velocity n |}.

Definition TrackModel_transpose (semitone : Z) (self : TrackModel) : TrackModel :=
  {| notes := map (Note_transpose semitone) (notes self);
     track_lyrics := track_lyrics self;
     track_annotations := track_annotations self |}.

Definition track_model : TrackAPI :=
  {| Track := TrackModel;
     Track_get_active_length := TrackModel_get_active_length;
     Track_remove_invalid := TrackModel_remove_invalid;
     Track_sort := TrackModel_sort;
     Track_transpose := TrackModel_transpose |}.

(** The pitches of a container's notes, track by track. *)
Definition pitches (self : @Music E track_model) : list (list Z) :=
  map (fun t : TrackModel => map Note_pitch (notes t)) (tracks self).

End ModelledTrack.

(** ** A small instance, to run the methods on concrete containers *)

(** A time signature with the two attributes [music.py] reads. *)
Record Signature : Type := mkSignature {
  start : Z;
  time : Z
}.

(** An object is valid when its time is not negative. *)
Definition check_time (t : Z) : result unit :=
  if t <? 0 then Raise (ValueError "time must be nonnegative") else Ok tt.

Definition sample_entities : Entities :=
  {| TimeSignature := Signature;
     KeySignature := Z;
     Tempo := Z;
     Lyric := Z;
     Annotation := Z;
     MetaData := string;
     TimingInfo := Z;
     TimeSignature_start := start;
     TimeSignature_time := time;
     KeySignature_time := fun t => t;
     Tempo_time := fun t => t;
     Lyric_time := fun t => t;
     Annotation_time := fun t => t;
     MetaData_init := "";
     TimingInfo_init := 24;
     TimeSignature_validate := fun x => check_time (time x);
     KeySignature_validate := check_time;
     Tempo_validate := check_time;
     Lyric_validate := check_time;
     Annotation_validate := check_time |}.

Definition sample_notes : NoteAPI :=
  {| Note_validate := fun n => check_time (Note_time n) |}.

Definition sample_tracks : TrackAPI :=
  @track_model sample_entities sample_notes.

Definition SampleMusic : Type := @Music sample_entities sample_tracks.

(** Converters that return a description of what they were asked. *)
Definition sample_converters : @Converters sample_entities sample_tracks :=
  {| Representation := string;
     PrettyMIDI := string;
     Multitrack := string;
     to_pretty_midi := fun _ => Ok "PrettyMIDI";
     to_pypianoroll := fun _ => Ok "Multitrack";
     to_event_representation := fun _ => Ok "event";
     to_note_representation := fun _ => Ok "note";
     to_pianoroll_representation := fun _ => Ok "pianoroll";
     to_representation := fun _ target => Ok (str_lower target) |}.

(** A track with one note, from time 0 to time 4. *)
Definition one_note_track : @TrackModel sample_entities :=
  @mkTrack sample_entities [mkNote 0 4 60 64] [] [].

(** A track with no note. *)
Definition silent_track : @TrackModel sample_entities :=
  @mkTrack sample_entities [] [] [].

(** A fully populated container whose two time signatures are out of
    order by [start], the later one by [start] having the smaller [time].
    The arguments are [timing], [time_signatures], [key_signatures],
    [tempos], [downbeats], [lyrics], [annotations], [tracks] and
    [meta_data]. *)
Definition two_signatures : SampleMusic :=
  @mkMusic sample_entities sample_tracks
    24 [mkSignature 5 1; mkSignature 1 9] [0] [5; 2] [8; 4] [3] [2]
    [one_note_track] "score".

(** A container with one track and all five sequences non-empty, whose
    only track has no note. *)
Definition silent_music : SampleMusic :=
  @mkMusic sample_entities sample_tracks
    24 [mkSignature 0 0] [0] [2] [] [3] [2] [silent_track] "score".

(** The container [Music()] builds. *)
Definition empty_music : SampleMusic :=
  @Music_init sample_entities sample_tracks
    None None None None None None None None None.

(** An instance of a user class [class MyTempo(Tempo)], at time 7. *)
Definition my_tempo : @PyObj sample_entities sample_tracks :=
  @mkObj sample_entities sample_tracks (KUser "__main__.MyTempo" [KTempo])
    tt tt 7 tt tt tt.

(** An instance of a user class [class LyricTempo(Lyric, Tempo)]: a tempo
    at time 7 and a lyric at time 3. *)
Definition lyric_tempo : @PyObj sample_entities sample_tracks :=
  @mkObj sample_entities sample_tracks
    (KUser "__main__.LyricTempo" [KLyric; KTempo]) tt tt 7 3 tt tt.

(** An instance of [Note]. *)
Definition a_note : @PyObj sample_entities sample_tracks :=
  @mkObj sample_entities sample_tracks KNote tt tt tt tt tt tt.

(** ** [validate] and [clip] *)

Section MoreMethods.

Context {E : Entities} {T : TrackAPI}.

(** What [Music.validate] uses beyond [Entities]: the class of the object
    each of [meta_data] and [timing] holds, which it tests with
    [isinstance]; the method [validate] of these two objects; and
    [muspy.utils.validate_list], which is not among the sources and is
    taken as it comes: it returns or raises. *)
Class Validation : Type := {
  MetaData_class : MetaData -> PyClass;
  TimingInfo_class : TimingInfo -> PyClass;
  MetaData_validate : MetaData -> result unit;
  TimingInfo_validate : TimingInfo -> result unit;
  validate_list : forall A : Type, list A -> result unit
}.

Context {V : Validation}.

(** [Music.validate] *)
Definition Music_validate (self : Music) : result unit :=
  if negb (issubclass (MetaData_class (meta_data self)) KMetaData) then
    Raise (TypeError "`meta_data` must be of type MetaData.")
  else if negb (issubclass (TimingInfo_class (timing self)) KTimingInfo) then
    Raise (TypeError "`timing` must be of type TimingInfo.")
  else
    _ <- MetaData_validate (meta_data self) ;;
    _ <- TimingInfo_validate (timing self) ;;
    _ <- validate_list TimeSignature (time_signatures self) ;;
    _ <- validate_list KeySignature (key_signatures self) ;;
    _ <- validate_list Tempo (tempos self) ;;
    _ <- validate_list Lyric (lyrics self) ;;
    _ <- validate_list Annotation (annotations self) ;;
    validate_list Track (tracks self).

(** The method [clip] of a track, which [Music.clip] calls on every
    track. *)
Class TrackClip : Type := {
  Track_clip : Z -> Z -> Track -> Track
}.

Context {K : TrackClip}.

(** [Music.clip]: an argument left out is [None] here, and takes its
    default, 0 for [lower] and 127 for [upper]. *)
Definition Music_clip (lower upper : option Z) (self : Music) : Music :=
  with_tracks
    (map (Track_clip (or_default lower 0) (or_default upper 127))
       (tracks self))
    self.

End MoreMethods.

(** A fully populated container whose time signatures carry the same
    value in [start] and in [time], with its sequences out of order. *)
Definition aligned_music : SampleMusic :=
  @mkMusic sample_entities sample_tracks
    24 [mkSignature 7 7; mkSignature 3 3] [6; 1] [5; 2] [8; 4] [3; 0] [2]
    [one_note_track] "score".

(** A fully populated container whose sequences are in order of time. *)
Definition ordered_music : SampleMusic :=
  @mkMusic sample_entities sample_tracks
    24 [mkSignature 9 3; mkSignature 1 7] [1; 6] [2; 5] [8; 4] [0; 3] [2]
    [one_note_track] "score".

(** * Properties *)

(** ** Sorting by key *)

Section ListSort.

Variable A : Type.
Variable key : A -> Z.

Lemma insert_by_perm (x : A) (l : list A) :
  Permutation (x :: l) (insert_by key x l).
Proof.
  induction l as [|y l IH]; simpl.
  - apply Permutation_refl.
  - destruct (key x <=? key y).
    + apply Permutation_refl.
    + eapply perm_trans; [apply perm_swap|]. now apply perm_skip.
Qed.

Lemma list_sort_perm (l : list A) : Permutation l (list_sort key l).
Proof.
  induction l as [|x l IH]; simpl.
  - constructor.
  - eapply perm_trans; [|apply insert_by_perm]. now apply perm_skip.
Qed.

Lemma insert_by_non_decreasing (x : A) (l : list A) :
  non_decreasing key l -> non_decreasing key (insert_by key x l).
Proof.
  unfold non_decreasing.
  induction 1 as [|y l Hl IH Hy]; simpl.
  - repeat constructor.
  - destruct (Z.leb_spec (key x) (key y)) as [Hxy|Hxy].
    + constructor; [now constructor|].
      constructor; [exact Hxy|].
      eapply Forall_impl; [|exact Hy]. simpl. intros; lia.
    + constructor; [exact IH|].
      eapply Permutation_Forall; [apply insert_by_perm|].
      constructor; [lia|exact Hy].
Qed.

Lemma list_sort_non_decreasing (l : list A) :
  non_decreasing key (list_sort key l).
Proof.
  induction l as [|x l IH]; simpl.
  - constructor.
  - now apply insert_by_non_decreasing.
Qed.

(** The sort is stable: among the elements of one key, the order of the
    input is kept. *)
Lemma insert_by_stable (k : Z) (x : A) (l : list A) :
  filter (fun y => key y =? k) (insert_by key x l)
  = filter (fun y => key y =? k) (x :: l).
Proof.
  induction l as [|y l IH]; simpl; [reflexivity|].
  destruct (Z.leb_spec (key x) (key y)) as [Hxy|Hxy]; simpl; [reflexivity|].
  simpl in IH. rewrite IH.
  destruct (Z.eqb_spec (key x) k) as [Hx|Hx]; [|reflexivity].
  destruct (Z.eqb_spec (key y) k) as [Hy|Hy]; [lia|reflexivity].
Qed.

Lemma list_sort_stable (k : Z) (l : list A) :
  filter (fun y => key y =? k) (list_sort key l)
  = filter (fun y => key y =? k) l.
Proof.
  induction l as [|x l IH]; simpl; [reflexivity|].
  rewrite insert_by_stable. simpl. now rewrite IH.
Qed.

Lemma list_sort_nil (l : list A) : list_sort key l = [] -> l = [].
Proof.
  intros H. pose proof (list_sort_perm l) as P. rewrite H in P.
  now apply Permutation_sym, Permutation_nil in P.
Qed.

End ListSort.

Arguments list_sort_perm {A} key l.
Arguments list_sort_non_decreasing {A} key l.
Arguments list_sort_stable {A} key k l.
Arguments list_sort_nil {A} key l.

(** ** Maximum, last element and comprehension *)

Lemma py_last_cases {A : Type} (l : list A) :
  (l = [] /\ py_last l = Raise (IndexError "list index out of range")) \/
  (l <> [] /\ exists x, py_last l = Ok x /\ In x l).
Proof.
  induction l as [|x l IH]; [left; split; reflexivity|].
  right; split; [discriminate|].
  destruct IH as [[-> _]|[Hl [y [Hy Hin]]]].
  - exists x; split; [reflexivity|now left].
  - exists y; split; [|now right].
    destruct l; [now elim Hl|exact Hy].
Qed.

Lemma py_max_list_cases {A : Type} (f : A -> Z) (l : list A) :
  (l = [] /\
   py_max_list (map f l) = Raise (ValueError "max() arg is an empty sequence"))
  \/ (l <> [] /\ exists v, py_max_list (map f l) = Ok v).
Proof.
  destruct l as [|x l]; [left; split; reflexivity|].
  right; split; [discriminate|]. simpl. eauto.
Qed.

Lemma py_max_spec (a : Z) (rest : list Z) :
  In (py_max a rest) (a :: rest) /\
  Forall (fun y => y <= py_max a rest) (a :: rest).
Proof.
  unfold py_max. revert a.
  induction rest as [|b rest IH]; intros a; simpl.
  - split; [now left|]. constructor; [lia|constructor].
  - destruct (IH (Z.max a b)) as [Hin Hall].
    inversion Hall as [|? ? Hab Hrest]; subst.
    split.
    + destruct Hin as [Hin|Hin]; [|now right; right].
      rewrite <- Hin. destruct (Z.max_spec a b) as [[_ ->]|[_ ->]]; auto.
    + constructor; [lia|]. constructor; [lia|exact Hrest].
Qed.

(** [max(l)] is the element of [l] that no element exceeds. *)
Lemma py_max_list_unique (l : list Z) (v : Z) :
  In v l -> Forall (fun y => y <= v) l -> py_max_list l = Ok v.
Proof.
  intros Hin Hall. destruct l as [|a rest]; [contradiction|]. simpl.
  destruct (py_max_spec a rest) as [Hin' Hall'].
  rewrite Forall_forall in Hall, Hall'.
  apply Hall in Hin'. apply Hall' in Hin. f_equal; lia.
Qed.

Lemma py_max_list_perm (l l' : list Z) :
  Permutation l l' -> py_max_list l = py_max_list l'.
Proof.
  intros P. destruct l as [|a rest].
  - apply Permutation_nil in P. now subst.
  - symmetry. simpl. destruct (py_max_spec a rest) as [Hin Hall].
    apply py_max_list_unique.
    + eapply Permutation_in; eassumption.
    + eapply Permutation_Forall; eassumption.
Qed.

Lemma py_last_bounds {A : Type} (key : A -> Z) (l : list A) (x : A) :
  non_decreasing key l -> py_last l = Ok x ->
  Forall (fun y => key y <= key x) l.
Proof.
  unfold non_decreasing.
  induction 1 as [|y l Hl IH Hy]; intros Hlast; [constructor|].
  destruct (py_last_cases l) as [[-> _]|[Hne [z [Hz Hin]]]].
  - simpl in Hlast. injection Hlast as ->. constructor; [lia|constructor].
  - assert (Hx : py_last l = Ok x) by (destruct l; [now elim Hne|exact Hlast]).
    rewrite Hx in Hz. injection Hz as <-.
    constructor; [|now apply IH].
    rewrite Forall_forall in Hy. now apply Hy.
Qed.

(** The last element of a list sorted by [key] carries the greatest key
    of the list. *)
Lemma last_of_sorted_is_max {A : Type} (key : A -> Z) (l : list A) :
  l <> [] ->
  exists x, In x l /\ py_last (list_sort key l) = Ok x /\
            py_max_list (map key l) = Ok (key x).
Proof.
  intros Hne.
  destruct (py_last_cases (list_sort key l)) as [[Hnil _]|[_ [x [Hx Hin]]]].
  - now apply list_sort_nil in Hnil.
  - pose proof (list_sort_perm key l) as P.
    exists x. split; [|split; [exact Hx|]].
    + eapply Permutation_in; [apply Permutation_sym|]; eassumption.
    + rewrite (py_max_list_perm _ _ (Permutation_map key P)).
      apply py_max_list_unique; [now apply in_map|].
      apply Forall_map.
      apply py_last_bounds; [apply list_sort_non_decreasing|exact Hx].
Qed.

Lemma comprehension_returns {A B : Type} (f : A -> result B) (l : list A) :
  Forall (fun x => exists y, f x = Ok y) l ->
  exists ys, comprehension f l = Ok ys /\ List.length ys = List.length l.
Proof.
  induction 1 as [|x l [y Hy] _ [ys [Hys Hlen]]]; simpl.
  - exists []; split; reflexivity.
  - exists (y :: ys). rewrite Hy, Hys; simpl. split; [reflexivity|].
    now rewrite Hlen.
Qed.

Lemma comprehension_map {A B D : Type} (f : B -> result D) (g : A -> B)
  (l : list A) :
  comprehension f (map g l) = comprehension (fun x => f (g x)) l.
Proof.
  induction l as [|x l IH]; simpl; [reflexivity|]. now rewrite IH.
Qed.

Lemma comprehension_ext {A B : Type} (f g : A -> result B) (l : list A) :
  (forall x, In x l -> f x = g x) -> comprehension f l = comprehension g l.
Proof.
  induction l as [|x l IH]; simpl; intros H; [reflexivity|].
  rewrite (H x) by now left. rewrite IH; [reflexivity|].
  intros y Hy. apply H. now right.
Qed.

(** ** Strings *)

Lemma prefix_app (x s : string) :
  String.prefix x s = true <-> exists suffix, s = (x ++ suffix)%string.
Proof.
  revert s. induction x as [|a x IH]; intros s.
  - split; [intros _; now exists s | intros _; now destruct s].
  - destruct s as [|b s]; simpl.
    + split; [discriminate | intros [suffix H]; discriminate H].
    + destruct (ascii_dec a b) as [Heq|Hab].
      * subst b. rewrite IH. split; intros [suffix H]; exists suffix.
        -- now rewrite H.
        -- now injection H.
      * split; [discriminate|]. intros [suffix H].
        injection H as H _. now elim Hab.
Qed.

(** [in_str] is the substring test: [x in s] holds exactly when [s] is
    some text, then [x], then some text. *)
Lemma in_str_spec (x s : string) :
  in_str x s = true <->
  exists before after, s = (before ++ x ++ after)%string.
Proof.
  induction s as [|c s IH]; cbn [in_str].
  - rewrite orb_false_r, prefix_app. split.
    + intros [suffix H]. now exists EmptyString, suffix.
    + intros [[|b before] [after H]]; [now exists after | discriminate H].
  - rewrite orb_true_iff, IH, prefix_app. split.
    + intros [[suffix H]|[before [after H]]].
      * now exists EmptyString, suffix.
      * exists (String c before), after. simpl. now rewrite H.
    + intros [[|b before] [after H]].
      * left. now exists after.
      * right. injection H as _ H. now exists before, after.
Qed.

Example str_lower_mixed_case : str_lower "Piano-Roll_42" = "piano-roll_42".
Proof. reflexivity. Qed.

Example in_str_examples :
  in_str "midi" "pretty_midi" = true /\ in_str "" "pypianoroll" = true /\
  in_str "pretty_midi_" "pretty_midi" = false /\
  in_tuple "midi" ["pretty_midi"] = false.
Proof. repeat split. Qed.

(** ** Classes *)

Lemma PyClass_eqb_refl (c : PyClass) : PyClass_eqb c c = true.
Proof.
  unfold PyClass_eqb. destruct (PyClass_eq_dec c c) as [_|Hne];
    [reflexivity | now elim Hne].
Qed.

Lemma PyClass_eqb_eq (c d : PyClass) : PyClass_eqb c d = true <-> c = d.
Proof.
  unfold PyClass_eqb. destruct (PyClass_eq_dec c d); split;
    congruence || discriminate.
Qed.

Lemma issubclass_refl (c : PyClass) : issubclass c c = true.
Proof.
  unfold issubclass.
  destruct c; cbn [ancestors existsb]; now rewrite PyClass_eqb_refl.
Qed.

(** ** Pruning a list *)

Lemma returns_ok (c : result unit) : returns c = true <-> c = Ok tt.
Proof.
  destruct c as [[]|e]; simpl; split; intros H;
    reflexivity || discriminate H.
Qed.

Lemma remove_invalid_from_list_In {A : Type} (validate : A -> result unit)
  (l : list A) (x : A) :
  In x (remove_invalid_from_list validate l) <-> In x l /\ validate x = Ok tt.
Proof.
  unfold remove_invalid_from_list. rewrite filter_In, returns_ok. reflexivity.
Qed.

Lemma remove_invalid_from_list_idem {A : Type} (validate : A -> result unit)
  (l : list A) :
  remove_invalid_from_list validate (remove_invalid_from_list validate l)
  = remove_invalid_from_list validate l.
Proof.
  unfold remove_invalid_from_list.
  induction l as [|x l IH]; simpl; [reflexivity|].
  destruct (returns (validate x)) eqn:Hx; simpl; [|exact IH].
  now rewrite Hx, IH.
Qed.

(** * The methods of [Music] *)

Section ContainerFacts.

Context {E : Entities} {T : TrackAPI} {C : Converters}.

(** ** [sort] and [reset] *)

(** [sort] reorders each sequence: nothing is added or lost. *)
Lemma sort_permutes (self : Music) :
  Permutation (time_signatures self) (time_signatures (Music_sort self)) /\
  Permutation (key_signatures self) (key_signatures (Music_sort self)) /\
  Permutation (tempos self) (tempos (Music_sort self)) /\
  Permutation (lyrics self) (lyrics (Music_sort self)) /\
  Permutation (annotations self) (annotations (Music_sort self)).
Proof.
  unfold Music_sort; simpl. repeat split; apply list_sort_perm.
Qed.

(** C4.  After [sort()], [time_signatures] is non-decreasing by [start],
    [key_signatures], [tempos], [lyrics] and [annotations] are
    non-decreasing by [time], and [downbeats] is the sequence it was
    before the call. *)
Theorem sort_orders_sequences (self : Music) :
  non_decreasing TimeSignature_start (time_signatures (Music_sort self)) /\
  non_decreasing KeySignature_time (key_signatures (Music_sort self)) /\
  non_decreasing Tempo_time (tempos (Music_sort self)) /\
  non_decreasing Lyric_time (lyrics (Music_sort self)) /\
  non_decreasing Annotation_time (annotations (Music_sort self)) /\
  downbeats (Music_sort self) = downbeats self.
Proof.
  unfold Music_sort; simpl.
  repeat split; apply list_sort_non_decreasing.
Qed.

(** C5.  [reset()] leaves [tracks] and the five time-stamped sequences
    empty, makes [meta_data] and [timing] the values [MetaData()] and
    [TimingInfo()] build, and leaves [downbeats] as it was. *)
Theorem reset_keeps_downbeats (self : Music) :
  tracks (Music_reset self) = [] /\
  time_signatures (Music_reset self) = [] /\
  key_signatures (Music_reset self) = [] /\
  tempos (Music_reset self) = [] /\
  lyrics (Music_reset self) = [] /\
  annotations (Music_reset self) = [] /\
  meta_data (Music_reset self) = MetaData_init /\
  timing (Music_reset self) = TimingInfo_init /\
  downbeats (Music_reset self) = downbeats self.
Proof.
  destruct self as [tm ts ks tp db ly an tr md].
  unfold Music_reset; simpl. repeat split.
Qed.

(** After [reset()] the container is the one [Music()] builds, but for
    its [downbeats]. *)
Lemma reset_is_init (self : Music) :
  Music_reset self
  = Music_init None None None None None (Some (downbeats self)) None None None.
Proof. reflexivity. Qed.

(** ** Conversions *)

Lemma call_then_end_none {A : Type} (c : result A) (v : PyValue) :
  call_then_end c = Ok v -> v = VNone.
Proof.
  destruct c as [a|e]; simpl; intros H; [|discriminate].
  now injection H as <-.
Qed.

Lemma call_then_end_calls {A : Type} (c : result A) :
  (forall a, c = Ok a -> call_then_end c = Ok VNone) /\
  (forall e, c = Raise e -> call_then_end c = Raise e).
Proof. split; intros x ->; reflexivity. Qed.

(** C8.  Each of the five conversion methods calls its converter (an
    exception of the converter is the method's) and returns [None]
    whatever the converter returned; [to_representation(target)] returns
    the result of the converter, and so does [to(target)] for each of the
    eight selectors, in whatever case they are written. *)
Theorem conversion_methods_drop_result (self : Music) :
  (forall r, to_event_representation self = Ok r ->
     Music_to_event_representation self = Ok VNone) /\
  (forall r, to_note_representation self = Ok r ->
     Music_to_note_representation self = Ok VNone) /\
  (forall r, to_pianoroll_representation self = Ok r ->
     Music_to_pianoroll_representation self = Ok VNone) /\
  (forall r, to_pretty_midi self = Ok r ->
     Music_to_pretty_midi self = Ok VNone) /\
  (forall r, to_pypianoroll self = Ok r ->
     Music_to_pypianoroll self = Ok VNone) /\
  (forall e,
     (to_event_representation self = Raise e ->
        Music_to_event_representation self = Raise e) /\
     (to_note_representation self = Raise e ->
        Music_to_note_representation self = Raise e) /\
     (to_pianoroll_representation self = Raise e ->
        Music_to_pianoroll_representation self = Raise e) /\
     (to_pretty_midi self = Raise e -> Music_to_pretty_midi self = Raise e) /\
     (to_pypianoroll self = Raise e -> Music_to_pypianoroll self = Raise e)) /\
  (forall target r, to_representation self target = Ok r ->
     Music_to_representation target self = Ok (VRepresentation r)) /\
  (forall target r,
     In (str_lower target)
       ["event"; "event-based"; "note"; "note-based"; "pianoroll";
        "piano-roll"] ->
     to_representation self target = Ok r ->
     Music_to target self = Ok (VRepresentation r)) /\
  (forall target r, str_lower target = "pretty_midi" ->
     to_pretty_midi self = Ok r -> Music_to target self = Ok (VPrettyMIDI r)) /\
  (forall target r, str_lower target = "pypianoroll" ->
     to_pypianoroll self = Ok r -> Music_to target self = Ok (VMultitrack r)).
Proof.
  unfold Music_to_event_representation, Music_to_note_representation,
    Music_to_pianoroll_representation, Music_to_pretty_midi,
    Music_to_pypianoroll, Music_to_representation, Music_to.
  repeat match goal with |- _ /\ _ => split end.
  1-5: intros r H; eapply call_then_end_calls; exact H.
  - intros e. repeat split; intros H; eapply call_then_end_calls; exact H.
  - intros target r H. now rewrite H.
  - intros target r Hin H.
    assert (Ht : in_tuple (str_lower target)
                   ["event"; "event-based"; "note"; "note-based";
                    "pianoroll"; "piano-roll"] = true).
    { apply existsb_exists. exists (str_lower target).
      split; [exact Hin | apply String.eqb_refl]. }
    rewrite Ht, H. reflexivity.
  - intros target r Ht H. rewrite Ht, H. reflexivity.
  - intros target r Ht H. rewrite Ht, H. reflexivity.
Qed.

Lemma conversion_methods_return_none (self : Music) (v : PyValue) :
  (Music_to_event_representation self = Ok v -> v = VNone) /\
  (Music_to_note_representation self = Ok v -> v = VNone) /\
  (Music_to_pianoroll_representation self = Ok v -> v = VNone) /\
  (Music_to_pretty_midi self = Ok v -> v = VNone) /\
  (Music_to_pypianoroll self = Ok v -> v = VNone).
Proof. repeat split; apply call_then_end_none. Qed.

(** ** [to] *)

(** A selector that is none of the six representation names and occurs
    neither in ["pretty_midi"] nor in ["pypianoroll"] is rejected with a
    [ValueError] that names it as it was given. *)
Lemma to_rejects (target : string) (self : Music) :
  in_tuple (str_lower target)
    ["event"; "event-based"; "note"; "note-based"; "pianoroll"; "piano-roll"]
  = false ->
  in_str (str_lower target) "pretty_midi" = false ->
  in_str (str_lower target) "pypianoroll" = false ->
  Music_to target self
  = Raise (ValueError ("Unsupported target : " ++ target ++ ".")).
Proof.
  intros H1 H2 H3. unfold Music_to. now rewrite H1, H2, H3.
Qed.

(** A selector that is none of the six representation names and occurs
    in ["pretty_midi"] is answered by [to_pretty_midi]. *)
Lemma to_tests_substring (target : string) (self : Music) :
  in_tuple (str_lower target)
    ["event"; "event-based"; "note"; "note-based"; "pianoroll"; "piano-roll"]
  = false ->
  in_str (str_lower target) "pretty_midi" = true ->
  Music_to target self = return_ VPrettyMIDI (to_pretty_midi self).
Proof.
  intros H1 H2. unfold Music_to. now rewrite H1, H2.
Qed.

(** C1.  [to("unsupported")] raises a [ValueError] that names
    ["unsupported"]; but [to("midi")] and [to("")], whose selectors are none
    of the eight supported ones, raise no [ValueError] of their own: they
    are answered by [to_pretty_midi], and [to("roll")] by
    [to_pypianoroll]. *)
Theorem to_unsupported_selectors (self : Music) :
  Music_to "unsupported" self
  = Raise (ValueError "Unsupported target : unsupported.") /\
  Music_to "midi" self = return_ VPrettyMIDI (to_pretty_midi self) /\
  Music_to "" self = return_ VPrettyMIDI (to_pretty_midi self) /\
  Music_to "roll" self = return_ VMultitrack (to_pypianoroll self).
Proof.
  split; [apply to_rejects; reflexivity|].
  split; [apply to_tests_substring; reflexivity|].
  split; [apply to_tests_substring; reflexivity|].
  reflexivity.
Qed.

(** ** [append] *)

(** An object is an instance of its own class. *)
Lemma isinstance_type_of (obj : PyObj) : isinstance obj (type_of obj) = true.
Proof. apply issubclass_refl. Qed.

Lemma read_part_spec {A : Type} {held : bool} (v : part A held) :
  (held = true -> exists x, read_part v = Some x) /\
  (held = false -> read_part v = None).
Proof.
  destruct held; simpl; split; intros H;
    discriminate H || reflexivity || (now exists v).
Qed.

(** An object can be seen as an instance of a class exactly when
    [isinstance] holds for the class. *)
Lemma as_TimeSignature_spec (obj : PyObj) :
  (isinstance obj KTimeSignature = true ->
   exists x, as_TimeSignature obj = Some x) /\
  (isinstance obj KTimeSignature = false -> as_TimeSignature obj = None).
Proof. apply read_part_spec. Qed.

Lemma as_KeySignature_spec (obj : PyObj) :
  (isinstance obj KKeySignature = true ->
   exists x, as_KeySignature obj = Some x) /\
  (isinstance obj KKeySignature = false -> as_KeySignature obj = None).
Proof. apply read_part_spec. Qed.

Lemma as_Tempo_spec (obj : PyObj) :
  (isinstance obj KTempo = true -> exists x, as_Tempo obj = Some x) /\
  (isinstance obj KTempo = false -> as_Tempo obj = None).
Proof. apply read_part_spec. Qed.

Lemma as_Lyric_spec (obj : PyObj) :
  (isinstance obj KLyric = true -> exists x, as_Lyric obj = Some x) /\
  (isinstance obj KLyric = false -> as_Lyric obj = None).
Proof. apply read_part_spec. Qed.

Lemma as_Annotation_spec (obj : PyObj) :
  (isinstance obj KAnnotation = true -> exists x, as_Annotation obj = Some x)
  /\ (isinstance obj KAnnotation = false -> as_Annotation obj = None).
Proof. apply read_part_spec. Qed.

Lemma as_Track_spec (obj : PyObj) :
  (isinstance obj KTrack = true -> exists x, as_Track obj = Some x) /\
  (isinstance obj KTrack = false -> as_Track obj = None).
Proof. apply read_part_spec. Qed.

(** [first_match] gives a class of the six that the object is an instance
    of, and the object is an instance of none of those tested before
    it. *)
Lemma first_match_is_first (obj : PyObj) (c : PyClass) :
  first_match obj = Some c ->
  isinstance obj c = true /\
  exists before after,
    appendable = (before ++ c :: after)%list /\
    forall d, In d before -> isinstance obj d = false.
Proof.
  unfold first_match. generalize appendable as l.
  induction l as [|d l IH]; simpl; [discriminate|].
  destruct (isinstance obj d) eqn:Hd.
  - intros H. injection H as <-. split; [exact Hd|].
    exists [], l. split; [reflexivity|]. intros ? [].
  - intros H. destruct (IH H) as [Hc [before [after [-> Hall]]]].
    split; [exact Hc|]. exists (d :: before), after.
    split; [reflexivity|]. intros d' [<-|Hin]; [exact Hd|now apply Hall].
Qed.

Lemma first_match_none (obj : PyObj) :
  first_match obj = None <-> existsb (isinstance obj) appendable = false.
Proof.
  unfold first_match. generalize appendable as l.
  induction l as [|d l IH]; simpl; [split; reflexivity|].
  destruct (isinstance obj d); simpl; [split; discriminate|exact IH].
Qed.

(** The six tests of [append], one after the other: each leaves the case
    where it holds, with the object seen as an instance of the class, and
    goes on where it fails. *)
Ltac test_instance spec :=
  let E := fresh "E" in
  let Hyes := fresh "Hyes" in
  let Hno := fresh "Hno" in
  destruct spec as [Hyes Hno];
  match type of Hno with
  | ?test = false -> _ =>
      destruct test eqn:E;
      [ let x := fresh "x" in destruct (Hyes eq_refl) as [x ->]
      | rewrite (Hno eq_refl) ];
      clear Hyes Hno
  end.

Ltac by_tests obj :=
  unfold Music_append, first_match, appendable; cbn [find existsb];
  test_instance (as_TimeSignature_spec obj);
  [|test_instance (as_KeySignature_spec obj);
    [|test_instance (as_Tempo_spec obj);
      [|test_instance (as_Lyric_spec obj);
        [|test_instance (as_Annotation_spec obj);
          [|test_instance (as_Track_spec obj)]]]]].

Ltac settle_tests :=
  repeat match goal with |- _ /\ _ => split end;
  intros; try discriminate;
  repeat match goal with
         | H : Some _ = Some _ |- _ => injection H as <-
         end;
  try reflexivity.

(** What [append] does with an object, by the first of the six classes
    the object is an instance of. *)
Lemma append_stores (obj : PyObj) (self : Music) :
  (forall x, first_match obj = Some KTimeSignature ->
     as_TimeSignature obj = Some x ->
     Music_append obj self
     = (with_time_signatures (time_signatures self ++ [x]) self, Ok tt)) /\
  (forall x, first_match obj = Some KKeySignature ->
     as_KeySignature obj = Some x ->
     Music_append obj self
     = (with_key_signatures (key_signatures self ++ [x]) self, Ok tt)) /\
  (forall x, first_match obj = Some KTempo -> as_Tempo obj = Some x ->
     Music_append obj self = (with_tempos (tempos self ++ [x]) self, Ok tt)) /\
  (forall x, first_match obj = Some KLyric -> as_Lyric obj = Some x ->
     Music_append obj self = (with_lyrics (lyrics self ++ [x]) self, Ok tt)) /\
  (forall x, first_match obj = Some KAnnotation ->
     as_Annotation obj = Some x ->
     Music_append obj self
     = (with_annotations (annotations self ++ [x]) self, Ok tt)) /\
  (forall x, first_match obj = Some KTrack -> as_Track obj = Some x ->
     Music_append obj self = (with_tracks (tracks self ++ [x]) self, Ok tt)) /\
  (first_match obj = None ->
   Music_append obj self = (self, Raise (TypeError (append_message obj)))).
Proof. by_tests obj; settle_tests. Qed.

(** [append] returns normally exactly for an instance of one of the six
    classes. *)
Lemma append_returns_iff (obj : PyObj) (self : Music) :
  snd (Music_append obj self) = Ok tt <->
  existsb (isinstance obj) appendable = true.
Proof. by_tests obj; simpl; split; intros H; reflexivity || discriminate H. Qed.

(** An object whose own class is one of the six is accepted, and its own
    class is the first it matches. *)
Lemma append_concrete_class (obj : PyObj) (self : Music) :
  In (type_of obj) appendable ->
  first_match obj = Some (type_of obj) /\
  snd (Music_append obj self) = Ok tt.
Proof.
  intros Hin. split.
  - unfold first_match, isinstance. simpl in Hin.
    repeat (destruct Hin as [<-|Hin]; [reflexivity|]). contradiction.
  - apply append_returns_iff, existsb_exists. exists (type_of obj).
    split; [exact Hin | apply isinstance_type_of].
Qed.

(** C3, as amended.  [append] appends the object, as the last element, to
    the sequence of the first of [TimeSignature], [KeySignature], [Tempo],
    [Lyric], [Annotation] and [Track], in this order, which is the order
    of the tests, that the object is an instance of, be its own class that
    class or one derived from it, and leaves every other attribute as it
    was; an object that is an instance of none of the six makes [append]
    raise a [TypeError] and the container is left as it was. *)
Theorem append_dispatches_on_instance (obj : PyObj) (self : Music) :
  (first_match obj = Some KTimeSignature ->
   exists x, as_TimeSignature obj = Some x /\
     Music_append obj self =
     (mkMusic (timing self) (time_signatures self ++ [x])
        (key_signatures self) (tempos self) (downbeats self) (lyrics self)
        (annotations self) (tracks self) (meta_data self), Ok tt)) /\
  (first_match obj = Some KKeySignature ->
   exists x, as_KeySignature obj = Some x /\
     Music_append obj self =
     (mkMusic (timing self) (time_signatures self)
        (key_signatures self ++ [x]) (tempos self) (downbeats self)
        (lyrics self) (annotations self) (tracks self) (meta_data self),
      Ok tt)) /\
  (first_match obj = Some KTempo ->
   exists x, as_Tempo obj = Some x /\
     Music_append obj self =
     (mkMusic (timing self) (time_signatures self) (key_signatures self)
        (tempos self ++ [x]) (downbeats self) (lyrics self)
        (annotations self) (tracks self) (meta_data self), Ok tt)) /\
  (first_match obj = Some KLyric ->
   exists x, as_Lyric obj = Some x /\
     Music_append obj self =
     (mkMusic (timing self) (time_signatures self) (key_signatures self)
        (tempos self) (downbeats self) (lyrics self ++ [x])
        (annotations self) (tracks self) (meta_data self), Ok tt)) /\
  (first_match obj = Some KAnnotation ->
   exists x, as_Annotation obj = Some x /\
     Music_append obj self =
     (mkMusic (timing self) (time_signatures self) (key_signatures self)
        (tempos self) (downbeats self) (lyrics self)
        (annotations self ++ [x]) (tracks self) (meta_data self), Ok tt)) /\
  (first_match obj = Some KTrack ->
   exists x, as_Track obj = Some x /\
     Music_append obj self =
     (mkMusic (timing self) (time_signatures self) (key_signatures self)
        (tempos self) (downbeats self) (lyrics self) (annotations self)
        (tracks self ++ [x]) (meta_data self), Ok tt)) /\
  (existsb (isinstance obj) appendable = false ->
   Music_append obj self = (self, Raise (TypeError (append_message obj)))).
Proof.
  destruct (append_stores obj self) as (S1 & S2 & S3 & S4 & S5 & S6 & S7).
  repeat match goal with |- _ /\ _ => split end; intros Hfirst.
  - destruct (first_match_is_first _ _ Hfirst) as [Hinst _].
    apply as_TimeSignature_spec in Hinst as [x Hx]. exists x.
    split; [exact Hx | exact (S1 x Hfirst Hx)].
  - destruct (first_match_is_first _ _ Hfirst) as [Hinst _].
    apply as_KeySignature_spec in Hinst as [x Hx]. exists x.
    split; [exact Hx | exact (S2 x Hfirst Hx)].
  - destruct (first_match_is_first _ _ Hfirst) as [Hinst _].
    apply as_Tempo_spec in Hinst as [x Hx]. exists x.
    split; [exact Hx | exact (S3 x Hfirst Hx)].
  - destruct (first_match_is_first _ _ Hfirst) as [Hinst _].
    apply as_Lyric_spec in Hinst as [x Hx]. exists x.
    split; [exact Hx | exact (S4 x Hfirst Hx)].
  - destruct (first_match_is_first _ _ Hfirst) as [Hinst _].
    apply as_Annotation_spec in Hinst as [x Hx]. exists x.
    split; [exact Hx | exact (S5 x Hfirst Hx)].
  - destruct (first_match_is_first _ _ Hfirst) as [Hinst _].
    apply as_Track_spec in Hinst as [x Hx]. exists x.
    split; [exact Hx | exact (S6 x Hfirst Hx)].
  - apply S7, first_match_none, Hfirst.
Qed.

(** C10.  An object whose class is [Note] makes [append] raise a
    [TypeError], whose message all the same lists [Note] among the
    expected classes, and the container is left as it was; [append]
    returns normally exactly for the instances of [TimeSignature],
    [KeySignature], [Tempo], [Lyric], [Annotation] and [Track]. *)
Theorem append_rejects_note (obj : PyObj) (self : Music) :
  (type_of obj = KNote ->
   Music_append obj self =
   (self,
    Raise (TypeError
      ("Expect TimeSignature, KeySignature, Tempo, Note, Lyric, Annotation "
       ++ "or Track object, but got <class 'muspy.classes.Note'>.")))) /\
  (snd (Music_append obj self) = Ok tt <->
   existsb (isinstance obj) appendable = true).
Proof.
  split; [|apply append_returns_iff].
  intros Hty.
  assert (Hnone : first_match obj = None).
  { unfold first_match, isinstance. now rewrite Hty. }
  destruct (append_stores obj self) as (_ & _ & _ & _ & _ & _ & Hraise).
  rewrite (Hraise Hnone). unfold append_message, class_str.
  now rewrite Hty.
Qed.

(** ** [get_length] *)

(** [get_active_length] returns when there is a track and the call on
    every track returns. *)
Lemma get_active_length_returns (is_sorted : bool) (self : Music) :
  tracks self <> [] ->
  Forall (fun t => exists v, Track_get_active_length is_sorted t = Ok v)
    (tracks self) ->
  exists v, Music_get_active_length is_sorted self = Ok v.
Proof.
  intros Hne Hall. unfold Music_get_active_length.
  destruct (comprehension_returns _ _ Hall) as [ys [-> Hlen]]; simpl.
  destruct ys as [|y ys]; simpl; [|eauto].
  destruct (tracks self); [now elim Hne|discriminate Hlen].
Qed.

(** With no track, [get_active_length] raises in both modes. *)
Lemma get_active_length_no_track (is_sorted : bool) (self : Music) :
  tracks self = [] ->
  Music_get_active_length is_sorted self
  = Raise (ValueError "max() arg is an empty sequence").
Proof. intros H. unfold Music_get_active_length. now rewrite H. Qed.

Ltac read_sequence l :=
  let H := fresh "H" in
  let x := fresh "x" in
  first
    [ destruct (py_last_cases l) as [[H ->]|[H [x [-> _]]]]
    | match goal with
      | |- context [py_max_list (map ?f l)] =>
          destruct (py_max_list_cases f l) as [[H ->]|[H [x ->]]]
      end ];
  cbn [bind]; [eauto|].

(** C9, as amended.  In both modes [get_length] raises when one of the
    five time-stamped sequences is empty; in the sorted mode, once
    [get_active_length] has returned, the exception is the [IndexError] of
    the last-element lookup.  When there is a track, the call of
    [get_active_length] on every track returns, and the five sequences are
    non-empty, [get_length] returns in both modes. *)
Theorem get_length_hazards (is_sorted : bool) (self : Music) :
  (time_signatures self = [] \/ key_signatures self = [] \/
   tempos self = [] \/ lyrics self = [] \/ annotations self = [] ->
   exists e, Music_get_length is_sorted self = Raise e) /\
  (time_signatures self = [] \/ key_signatures self = [] \/
   tempos self = [] \/ lyrics self = [] \/ annotations self = [] ->
   forall active, Music_get_active_length true self = Ok active ->
   Music_get_length true self = Raise (IndexError "list index out of range"))
  /\
  (tracks self <> [] ->
   Forall (fun t => exists v, Track_get_active_length is_sorted t = Ok v)
     (tracks self) ->
   time_signatures self <> [] -> key_signatures self <> [] ->
   tempos self <> [] -> lyrics self <> [] -> annotations self <> [] ->
   exists v, Music_get_length is_sorted self = Ok v).
Proof.
  split; [|split].
  - intros Hempty. unfold Music_get_length.
    destruct is_sorted;
      (destruct (Music_get_active_length _ self) as [a|e];
         cbn [bind]; [|eauto]);
      read_sequence (time_signatures self);
      read_sequence (key_signatures self);
      read_sequence (tempos self);
      read_sequence (lyrics self);
      read_sequence (annotations self);
      exfalso; tauto.
  - intros Hempty active Ha. unfold Music_get_length. rewrite Ha; cbn [bind].
    read_sequence (time_signatures self).
    read_sequence (key_signatures self).
    read_sequence (tempos self).
    read_sequence (lyrics self).
    read_sequence (annotations self).
    exfalso; tauto.
  - intros Htr Hall H1 H2 H3 H4 H5.
    destruct (get_active_length_returns is_sorted self Htr Hall) as [a Ha].
    unfold Music_get_length. rewrite Ha.
    destruct is_sorted; cbn [bind];
      read_sequence (time_signatures self); try tauto;
      read_sequence (key_signatures self); try tauto;
      read_sequence (tempos self); try tauto;
      read_sequence (lyrics self); try tauto;
      read_sequence (annotations self); try tauto;
      eauto.
Qed.

(** Where the two modes of [get_length] do agree: on a container whose
    time signatures carry the same value in [start] and in [time], whose
    tracks report the same active length once sorted, and whose five
    sequences are non-empty, [get_length(is_sorted=True)] after [sort()]
    is [get_length(is_sorted=False)] before. *)
Lemma get_length_sorted_agrees (self : Music) :
  (forall x, In x (time_signatures self) ->
     TimeSignature_start x = TimeSignature_time x) ->
  (forall t, In t (tracks self) ->
     Track_get_active_length true (Track_sort t)
     = Track_get_active_length false t) ->
  time_signatures self <> [] -> key_signatures self <> [] ->
  tempos self <> [] -> lyrics self <> [] -> annotations self <> [] ->
  Music_get_length true (Music_sort self) = Music_get_length false self.
Proof.
  intros Hts Htr H1 H2 H3 H4 H5.
  unfold Music_get_length, Music_get_active_length, Music_sort; simpl.
  rewrite comprehension_map, (comprehension_ext _ _ _ Htr).
  destruct (last_of_sorted_is_max TimeSignature_start _ H1)
    as [x1 [Hin1 [-> M1]]].
  destruct (last_of_sorted_is_max KeySignature_time _ H2) as [x2 [_ [-> ->]]].
  destruct (last_of_sorted_is_max Tempo_time _ H3) as [x3 [_ [-> ->]]].
  destruct (last_of_sorted_is_max Lyric_time _ H4) as [x4 [_ [-> ->]]].
  destruct (last_of_sorted_is_max Annotation_time _ H5) as [x5 [_ [-> ->]]].
  rewrite (map_ext_in _ _ _ Hts) in M1. rewrite M1, (Hts x1 Hin1).
  reflexivity.
Qed.

End ContainerFacts.

(** ** Pruning and transposition, on the modelled tracks *)

Section ModelledTrackFacts.

Context {E : Entities} {N : NoteAPI}.

Lemma TrackModel_remove_invalid_idem (t : TrackModel) :
  TrackModel_remove_invalid (TrackModel_remove_invalid t)
  = TrackModel_remove_invalid t.
Proof.
  unfold TrackModel_remove_invalid; simpl.
  now rewrite !remove_invalid_from_list_idem.
Qed.

(** A pruned track keeps only notes it had. *)
Lemma TrackModel_remove_invalid_notes (t : TrackModel) (n : Note) :
  In n (notes (TrackModel_remove_invalid t)) <->
  In n (notes t) /\ Note_validate n = Ok tt.
Proof. apply remove_invalid_from_list_In. Qed.

(** C6.  [remove_invalid()] is a total function of the container: it
    raises nothing.  Called twice in succession it leaves the container
    that one call leaves.  Each of the five entity sequences keeps exactly
    its elements whose [validate()] succeeds.  No track is removed: the
    tracks are the same tracks, in the same order, each one pruned. *)
Theorem remove_invalid_idempotent (self : @Music E track_model) :
  Music_remove_invalid (Music_remove_invalid self) = Music_remove_invalid self
  /\
  (forall x, In x (time_signatures (Music_remove_invalid self)) <->
     In x (time_signatures self) /\ TimeSignature_validate x = Ok tt) /\
  (forall x, In x (key_signatures (Music_remove_invalid self)) <->
     In x (key_signatures self) /\ KeySignature_validate x = Ok tt) /\
  (forall x, In x (tempos (Music_remove_invalid self)) <->
     In x (tempos self) /\ Tempo_validate x = Ok tt) /\
  (forall x, In x (lyrics (Music_remove_invalid self)) <->
     In x (lyrics self) /\ Lyric_validate x = Ok tt) /\
  (forall x, In x (annotations (Music_remove_invalid self)) <->
     In x (annotations self) /\ Annotation_validate x = Ok tt) /\
  List.length (tracks (Music_remove_invalid self)) = List.length (tracks self)
  /\
  tracks (Music_remove_invalid self)
  = map TrackModel_remove_invalid (tracks self).
Proof.
  split.
  - unfold Music_remove_invalid; simpl.
    rewrite !remove_invalid_from_list_idem, map_map.
    f_equal. apply map_ext. intros t. apply TrackModel_remove_invalid_idem.
  - unfold Music_remove_invalid; simpl.
    repeat match goal with |- _ /\ _ => split end;
      try (intros x; apply remove_invalid_from_list_In).
    + apply length_map.
    + reflexivity.
Qed.

Lemma Note_transpose_inverse (n : Z) (x : Note) :
  Note_transpose (- n) (Note_transpose n x) = x.
Proof.
  destruct x as [t d p v]. unfold Note_transpose; simpl.
  f_equal. lia.
Qed.

Lemma TrackModel_transpose_inverse (n : Z) (t : TrackModel) :
  TrackModel_transpose (- n) (TrackModel_transpose n t) = t.
Proof.
  destruct t as [ns ls ans]. unfold TrackModel_transpose; simpl.
  f_equal. rewrite map_map.
  rewrite <- (map_id ns) at 2. apply map_ext. apply Note_transpose_inverse.
Qed.

(** [transpose(n)] adds [n] to the pitch of every note of every track. *)
Lemma transpose_shifts_pitches (n : Z) (self : @Music E track_model) :
  pitches (Music_transpose n self)
  = map (map (fun p => p + n)) (pitches self).
Proof.
  unfold pitches, Music_transpose; simpl. rewrite !map_map.
  apply map_ext. intros t. simpl. rewrite !map_map. reflexivity.
Qed.

(** C7.  [transpose(n)] followed by [transpose(-n)] gives every note of
    every track the pitch it had: the pitches are those before the first
    call, and so is the whole container. *)
Theorem transpose_then_back (n : Z) (self : @Music E track_model) :
  pitches (Music_transpose (- n) (Music_transpose n self)) = pitches self /\
  Music_transpose (- n) (Music_transpose n self) = self.
Proof.
  assert (Hback : Music_transpose (- n) (Music_transpose n self) = self).
  { destruct self as [tm ts ks tp db ly an tr md].
    unfold Music_transpose, with_tracks; simpl. f_equal.
    rewrite map_map. rewrite <- (map_id tr) at 2.
    apply map_ext. apply TrackModel_transpose_inverse. }
  split; [now rewrite Hback | exact Hback].
Qed.

(** On the modelled tracks the sorted and the unsorted active length of a
    track agree once the track is sorted. *)
Lemma TrackModel_sorted_length (t : TrackModel) :
  TrackModel_get_active_length true (TrackModel_sort t)
  = TrackModel_get_active_length false t.
Proof.
  unfold TrackModel_get_active_length, TrackModel_sort; simpl.
  apply py_max_list_perm, Permutation_map, Permutation_sym, list_sort_perm.
Qed.

End ModelledTrackFacts.

(** ** The methods run on concrete containers *)

(** C2.  The container [two_signatures] is fully populated (a track and
    the five sequences non-empty) and its track reports the same active
    length sorted or not; [get_length(is_sorted=False)] is 9 on it;
    [sort()] orders its time signatures by [start], which leaves the one
    of [time] 1 last; and [get_length(is_sorted=True)] is then 5. *)
Theorem get_length_differs_after_sort :
  (tracks two_signatures <> [] /\ time_signatures two_signatures <> [] /\
   key_signatures two_signatures <> [] /\ tempos two_signatures <> [] /\
   lyrics two_signatures <> [] /\ annotations two_signatures <> []) /\
  Forall (fun t => Track_get_active_length true (Track_sort t)
                   = Track_get_active_length false t)
    (tracks two_signatures) /\
  Music_get_length false two_signatures = Ok 9 /\
  time_signatures (Music_sort two_signatures)
  = [mkSignature 1 9; mkSignature 5 1] /\
  Music_get_length true (Music_sort two_signatures) = Ok 5.
Proof.
  split; [repeat split; discriminate|].
  split; [|repeat split].
  apply Forall_forall. intros t _.
  apply (@TrackModel_sorted_length sample_entities t).
Qed.

(** C3, the claim as stated fails: the class of [my_tempo] is none of the
    six, it is a class derived from [Tempo], and [append(my_tempo)] on the
    empty container raises nothing: the object is the new last element of
    [tempos]. *)
Lemma append_accepts_subclass_instance :
  type_of my_tempo = KUser "__main__.MyTempo" [KTempo] /\
  ~ In (type_of my_tempo) appendable /\
  Music_append my_tempo empty_music
  = (@mkMusic sample_entities sample_tracks 24 [] [] [7] [] [] [] [] "",
     Ok tt).
Proof.
  split; [reflexivity|]. split; [|reflexivity].
  simpl. intros H.
  repeat (destruct H as [H|H]; [discriminate H|]). exact H.
Qed.

(** An instance of [class LyricTempo(Lyric, Tempo)] is an instance of
    [Lyric] and of [Tempo]; the test for [Tempo] comes first, and
    [append] makes the object the last element of [tempos]. *)
Lemma append_dispatches_on_instance_witness :
  isinstance lyric_tempo KLyric = true /\
  first_match lyric_tempo = Some KTempo /\
  exists x,
    as_Tempo lyric_tempo = Some x /\
    Music_append lyric_tempo empty_music
    = (@mkMusic sample_entities sample_tracks 24 [] [] ([] ++ [x]) []
         [] [] [] "", Ok tt).
Proof.
  split; [reflexivity|]. split; [reflexivity|].
  destruct (append_dispatches_on_instance lyric_tempo empty_music)
    as (_ & _ & Htempo & _).
  apply Htempo. reflexivity.
Defined.

Lemma append_rejects_note_witness :
  Music_append a_note empty_music =
  (empty_music,
   Raise (TypeError
     ("Expect TimeSignature, KeySignature, Tempo, Note, Lyric, Annotation "
      ++ "or Track object, but got <class 'muspy.classes.Note'>."))).
Proof.
  apply (proj1 (append_rejects_note a_note empty_music)). reflexivity.
Defined.

(** C9, the claim as stated fails: [silent_music] has a track and its five
    sequences are non-empty, and [get_length] raises on it in both modes,
    because its track has no note and so no active length. *)
Lemma get_length_raises_on_silent_track :
  (tracks silent_music <> [] /\ time_signatures silent_music <> [] /\
   key_signatures silent_music <> [] /\ tempos silent_music <> [] /\
   lyrics silent_music <> [] /\ annotations silent_music <> []) /\
  Music_get_length true silent_music
  = Raise (ValueError "max() arg is an empty sequence") /\
  Music_get_length false silent_music
  = Raise (ValueError "max() arg is an empty sequence").
Proof.
  split; [repeat split; discriminate|]. split; reflexivity.
Qed.

Lemma get_length_hazards_witness :
  (exists e, Music_get_length true empty_music = Raise e) /\
  (exists v, Music_get_length true (Music_sort two_signatures) = Ok v).
Proof.
  split.
  - apply (get_length_hazards true empty_music). left. reflexivity.
  - apply (get_length_hazards true (Music_sort two_signatures));
      try discriminate.
    constructor; [|constructor]. eexists. reflexivity.
Defined.

Lemma conversion_methods_drop_result_witness :
  @Music_to_pretty_midi _ _ sample_converters two_signatures = Ok VNone /\
  @Music_to _ _ sample_converters "Piano-Roll" two_signatures
  = Ok (@VRepresentation _ _ sample_converters "piano-roll").
Proof.
  destruct (@conversion_methods_drop_result _ _ sample_converters
              two_signatures)
    as (_ & _ & _ & Hmidi & _ & _ & _ & Hto & _).
  split.
  - apply (Hmidi "PrettyMIDI"). reflexivity.
  - apply Hto; [simpl; tauto | reflexivity].
Defined.

(** * Further properties of the methods *)

(** ** Lists *)

(** Sorting a list that is in order leaves it as it is. *)
Lemma list_sort_ordered {A : Type} (key : A -> Z) (l : list A) :
  non_decreasing key l -> list_sort key l = l.
Proof.
  unfold non_decreasing.
  induction 1 as [|x l Hl IH Hx]; simpl; [reflexivity|].
  rewrite IH. destruct l as [|y l']; simpl; [reflexivity|].
  inversion Hx as [|? ? Hxy _]; subst.
  destruct (Z.leb_spec (key x) (key y)); [reflexivity|lia].
Qed.

Lemma list_sort_idem {A : Type} (key : A -> Z) (l : list A) :
  list_sort key (list_sort key l) = list_sort key l.
Proof. apply list_sort_ordered, list_sort_non_decreasing. Qed.

Lemma py_last_In {A : Type} (l : list A) (x : A) : py_last l = Ok x -> In x l.
Proof.
  intros H. destruct (py_last_cases l) as [[_ Hr]|[_ [y [Hy Hin]]]].
  - rewrite Hr in H. discriminate H.
  - rewrite Hy in H. now injection H as <-.
Qed.

Lemma py_max_list_bound (l : list Z) (v : Z) :
  py_max_list l = Ok v -> In v l /\ Forall (fun y => y <= v) l.
Proof.
  destruct l as [|a rest]; simpl; intros H; [discriminate H|].
  injection H as <-. apply py_max_spec.
Qed.

Lemma py_max_list_app {A : Type} (f : A -> Z) (l : list A) (x : A) (m : Z) :
  py_max_list (map f l) = Ok m ->
  py_max_list (map f (l ++ [x])) = Ok (Z.max m (f x)).
Proof.
  destruct l as [|a l]; simpl; intros H; [discriminate H|].
  injection H as <-. unfold py_max.
  now rewrite map_app, fold_left_app.
Qed.

(** In a non-empty list that is in order by [key], the last element
    carries the greatest key. *)
Lemma last_of_ordered_is_max {A : Type} (key : A -> Z) (l : list A) :
  non_decreasing key l -> l <> [] ->
  exists x, py_last l = Ok x /\ py_max_list (map key l) = Ok (key x).
Proof.
  intros Hord Hne.
  destruct (py_last_cases l) as [[Hnil _]|[_ [x [Hx Hin]]]];
    [contradiction|].
  exists x. split; [exact Hx|].
  apply py_max_list_unique; [now apply in_map|].
  apply Forall_map. now apply py_last_bounds.
Qed.

Lemma comprehension_app {A B : Type} (f : A -> result B) (l : list A)
  (x : A) (ys : list B) (y : B) :
  comprehension f l = Ok ys -> f x = Ok y ->
  comprehension f (l ++ [x]) = Ok (ys ++ [y])%list.
Proof.
  revert ys. induction l as [|a l IH]; simpl; intros ys Hl Hx.
  - injection Hl as <-. now rewrite Hx.
  - destruct (f a) as [b|e]; simpl in *; [|discriminate Hl].
    destruct (comprehension f l) as [bs|e]; simpl in *; [|discriminate Hl].
    injection Hl as <-. now rewrite (IH bs eq_refl Hx).
Qed.

Section MoreFacts.

Context {E : Entities} {T : TrackAPI} {C : Converters}.
Context {V : Validation} {K : TrackClip}.

(** ** [sort], further *)

(** [sort()] is stable: in each of the five sequences, the elements that
    carry one value of the ordering field stand after the call in the
    order they stood in before. *)
Theorem sort_is_stable (self : Music) (k : Z) :
  filter (fun x => TimeSignature_start x =? k)
    (time_signatures (Music_sort self))
  = filter (fun x => TimeSignature_start x =? k) (time_signatures self) /\
  filter (fun x => KeySignature_time x =? k) (key_signatures (Music_sort self))
  = filter (fun x => KeySignature_time x =? k) (key_signatures self) /\
  filter (fun x => Tempo_time x =? k) (tempos (Music_sort self))
  = filter (fun x => Tempo_time x =? k) (tempos self) /\
  filter (fun x => Lyric_time x =? k) (lyrics (Music_sort self))
  = filter (fun x => Lyric_time x =? k) (lyrics self) /\
  filter (fun x => Annotation_time x =? k) (annotations (Music_sort self))
  = filter (fun x => Annotation_time x =? k) (annotations self).
Proof.
  unfold Music_sort; simpl. repeat split; apply list_sort_stable.
Qed.

(** [sort()] called twice in succession leaves the container that one
    call leaves, when sorting a sorted track changes nothing. *)
Theorem sort_idempotent (self : Music) :
  (forall t, In t (tracks self) -> Track_sort (Track_sort t) = Track_sort t) ->
  Music_sort (Music_sort self) = Music_sort self.
Proof.
  intros Htr. unfold Music_sort; simpl.
  rewrite !list_sort_idem, map_map.
  f_equal. apply map_ext_in. exact Htr.
Qed.

(** [get_length(is_sorted=False)] does not depend on the order of the
    sequences: it gives after [sort()] what it gives before, value or
    exception, when sorting a track does not change what its own
    [get_active_length(False)] gives. *)
Theorem get_length_unsorted_after_sort (self : Music) :
  (forall t, In t (tracks self) ->
     Track_get_active_length false (Track_sort t)
     = Track_get_active_length false t) ->
  Music_get_length false (Music_sort self) = Music_get_length false self.
Proof.
  intros Htr.
  unfold Music_get_length, Music_get_active_length, Music_sort; simpl.
  rewrite comprehension_map, (comprehension_ext _ _ _ Htr).
  rewrite <- (py_max_list_perm _ _
    (Permutation_map TimeSignature_time
       (list_sort_perm TimeSignature_start (time_signatures self)))).
  rewrite <- (py_max_list_perm _ _
    (Permutation_map KeySignature_time
       (list_sort_perm KeySignature_time (key_signatures self)))).
  rewrite <- (py_max_list_perm _ _
    (Permutation_map Tempo_time (list_sort_perm Tempo_time (tempos self)))).
  rewrite <- (py_max_list_perm _ _
    (Permutation_map Lyric_time (list_sort_perm Lyric_time (lyrics self)))).
  rewrite <- (py_max_list_perm _ _
    (Permutation_map Annotation_time
       (list_sort_perm Annotation_time (annotations self)))).
  reflexivity.
Qed.

(** ** [get_length], further *)

(** What [get_length(is_sorted=False)] has read when it returns. *)
Lemma get_length_unsorted_reads (self : Music) (v : Z) :
  Music_get_length false self = Ok v ->
  exists active m1 m2 m3 m4 m5,
    Music_get_active_length false self = Ok active /\
    py_max_list (map TimeSignature_time (time_signatures self)) = Ok m1 /\
    py_max_list (map KeySignature_time (key_signatures self)) = Ok m2 /\
    py_max_list (map Tempo_time (tempos self)) = Ok m3 /\
    py_max_list (map Lyric_time (lyrics self)) = Ok m4 /\
    py_max_list (map Annotation_time (annotations self)) = Ok m5 /\
    v = py_max active [m1; m2; m3; m4; m5].
Proof.
  unfold Music_get_length.
  destruct (Music_get_active_length false self) as [a|e];
    cbn [bind]; [|discriminate].
  destruct (py_max_list (map TimeSignature_time _)) as [m1|e];
    cbn [bind]; [|discriminate].
  destruct (py_max_list (map KeySignature_time _)) as [m2|e];
    cbn [bind]; [|discriminate].
  destruct (py_max_list (map Tempo_time _)) as [m3|e];
    cbn [bind]; [|discriminate].
  destruct (py_max_list (map Lyric_time _)) as [m4|e];
    cbn [bind]; [|discriminate].
  destruct (py_max_list (map Annotation_time _)) as [m5|e];
    cbn [bind]; [|discriminate].
  intros H. injection H as <-.
  exists a, m1, m2, m3, m4, m5. repeat split.
Qed.

Lemma bounded_by_max {A : Type} (f : A -> Z) (l : list A) (m v : Z) :
  py_max_list (map f l) = Ok m -> m <= v -> Forall (fun x => f x <= v) l.
Proof.
  intros H Hm. apply py_max_list_bound in H as [_ H].
  rewrite Forall_map in H. eapply Forall_impl; [|exact H].
  simpl. intros; lia.
Qed.

(** When [get_length(is_sorted=False)] returns, what it returns is the
    time of the last event: the active length and the time of every
    element of the five sequences are at most it, and it is one of
    them. *)
Theorem get_length_is_maximum (self : Music) (v : Z) :
  Music_get_length false self = Ok v ->
  exists active,
    Music_get_active_length false self = Ok active /\ active <= v /\
    Forall (fun x => TimeSignature_time x <= v) (time_signatures self) /\
    Forall (fun x => KeySignature_time x <= v) (key_signatures self) /\
    Forall (fun x => Tempo_time x <= v) (tempos self) /\
    Forall (fun x => Lyric_time x <= v) (lyrics self) /\
    Forall (fun x => Annotation_time x <= v) (annotations self) /\
    (v = active \/
     In v (map TimeSignature_time (time_signatures self)) \/
     In v (map KeySignature_time (key_signatures self)) \/
     In v (map Tempo_time (tempos self)) \/
     In v (map Lyric_time (lyrics self)) \/
     In v (map Annotation_time (annotations self))).
Proof.
  intros H.
  destruct (get_length_unsorted_reads self v H)
    as (a & m1 & m2 & m3 & m4 & m5 & Ha & H1 & H2 & H3 & H4 & H5 & Hv).
  unfold py_max in Hv; simpl in Hv.
  exists a. split; [exact Ha|]. split; [lia|].
  repeat (split; [eapply bounded_by_max; [eassumption|lia]|]).
  apply py_max_list_bound in H1 as [I1 _], H2 as [I2 _], H3 as [I3 _],
    H4 as [I4 _], H5 as [I5 _].
  assert (Hcase : v = a \/ v = m1 \/ v = m2 \/ v = m3 \/ v = m4 \/ v = m5)
    by lia.
  destruct Hcase as [->|[->|[->|[->|[->| ->]]]]]; tauto.
Qed.

(** The contract of [is_sorted]: on a container whose five sequences are
    non-empty and each in order of [time], and whose tracks give the same
    active length in both modes, [get_length(is_sorted=True)] is
    [get_length(is_sorted=False)].  The order that counts for the time
    signatures is that of [time]. *)
Theorem get_length_sorted_when_ordered (self : Music) :
  non_decreasing TimeSignature_time (time_signatures self) ->
  non_decreasing KeySignature_time (key_signatures self) ->
  non_decreasing Tempo_time (tempos self) ->
  non_decreasing Lyric_time (lyrics self) ->
  non_decreasing Annotation_time (annotations self) ->
  time_signatures self <> [] -> key_signatures self <> [] ->
  tempos self <> [] -> lyrics self <> [] -> annotations self <> [] ->
  (forall t, In t (tracks self) ->
     Track_get_active_length true t = Track_get_active_length false t) ->
  Music_get_length true self = Music_get_length false self.
Proof.
  intros O1 O2 O3 O4 O5 N1 N2 N3 N4 N5 Htr.
  unfold Music_get_length, Music_get_active_length.
  rewrite (comprehension_ext _ _ _ Htr).
  destruct (last_of_ordered_is_max _ _ O1 N1) as [x1 [-> ->]].
  destruct (last_of_ordered_is_max _ _ O2 N2) as [x2 [-> ->]].
  destruct (last_of_ordered_is_max _ _ O3 N3) as [x3 [-> ->]].
  destruct (last_of_ordered_is_max _ _ O4 N4) as [x4 [-> ->]].
  destruct (last_of_ordered_is_max _ _ O5 N5) as [x5 [-> ->]].
  reflexivity.
Qed.

(** With no track, [get_active_length] and [get_length] raise the
    [ValueError] of [max] on an empty list, in both modes and whatever the
    five sequences hold. *)
Theorem length_queries_need_a_track (is_sorted : bool) (self : Music) :
  tracks self = [] ->
  Music_get_active_length is_sorted self
  = Raise (ValueError "max() arg is an empty sequence") /\
  Music_get_length is_sorted self
  = Raise (ValueError "max() arg is an empty sequence").
Proof.
  intros Htr.
  assert (Ha := get_active_length_no_track is_sorted self Htr).
  split; [exact Ha|].
  unfold Music_get_length. rewrite Ha. now destruct is_sorted.
Qed.

(** On a container with an empty sequence, once [get_active_length] has
    returned in both modes, the two modes of [get_length] raise different
    exceptions: the full scan of [get_length(is_sorted=False)] raises the
    [ValueError] of [max] on an empty list, and
    [get_length(is_sorted=True)] raises the [IndexError] of the lookup of
    a last element. *)
Theorem get_length_modes_fail_differently (self : Music)
  (active active' : Z) :
  Music_get_active_length false self = Ok active ->
  Music_get_active_length true self = Ok active' ->
  time_signatures self = [] \/ key_signatures self = [] \/
  tempos self = [] \/ lyrics self = [] \/ annotations self = [] ->
  Music_get_length false self
  = Raise (ValueError "max() arg is an empty sequence") /\
  Music_get_length true self = Raise (IndexError "list index out of range").
Proof.
  intros Ha Ha' Hempty. unfold Music_get_length. rewrite Ha, Ha'; cbn [bind].
  split.
  - destruct (py_max_list_cases TimeSignature_time (time_signatures self))
      as [[_ ->]|[N1 [m1 ->]]]; cbn [bind]; [reflexivity|].
    destruct (py_max_list_cases KeySignature_time (key_signatures self))
      as [[_ ->]|[N2 [m2 ->]]]; cbn [bind]; [reflexivity|].
    destruct (py_max_list_cases Tempo_time (tempos self))
      as [[_ ->]|[N3 [m3 ->]]]; cbn [bind]; [reflexivity|].
    destruct (py_max_list_cases Lyric_time (lyrics self))
      as [[_ ->]|[N4 [m4 ->]]]; cbn [bind]; [reflexivity|].
    destruct (py_max_list_cases Annotation_time (annotations self))
      as [[_ ->]|[N5 [m5 ->]]]; cbn [bind]; [reflexivity|].
    exfalso; tauto.
  - destruct (py_last_cases (time_signatures self))
      as [[_ ->]|[N1 [x1 [-> _]]]]; cbn [bind]; [reflexivity|].
    destruct (py_last_cases (key_signatures self))
      as [[_ ->]|[N2 [x2 [-> _]]]]; cbn [bind]; [reflexivity|].
    destruct (py_last_cases (tempos self))
      as [[_ ->]|[N3 [x3 [-> _]]]]; cbn [bind]; [reflexivity|].
    destruct (py_last_cases (lyrics self))
      as [[_ ->]|[N4 [x4 [-> _]]]]; cbn [bind]; [reflexivity|].
    destruct (py_last_cases (annotations self))
      as [[_ ->]|[N5 [x5 [-> _]]]]; cbn [bind]; [reflexivity|].
    exfalso; tauto.
Qed.

Lemma last_of_sorted_bounded {A : Type} (sort_key time_of : A -> Z)
  (l : list A) (x : A) (m : Z) :
  py_last (list_sort sort_key l) = Ok x ->
  py_max_list (map time_of l) = Ok m -> time_of x <= m.
Proof.
  intros Hlast Hmax. apply py_last_In in Hlast.
  apply (Permutation_in _ (Permutation_sym (list_sort_perm sort_key l)))
    in Hlast.
  apply py_max_list_bound in Hmax as [_ Hall].
  rewrite Forall_map, Forall_forall in Hall. now apply Hall.
Qed.

(** After [sort()], [get_length(is_sorted=True)] never exceeds what
    [get_length(is_sorted=False)] gave before: the sorted mode reads
    times that the full scan has read too, so it can fall short of the
    length, not pass it. *)
Theorem sorted_length_never_exceeds (self : Music) (v v' : Z) :
  (forall t, In t (tracks self) ->
     Track_get_active_length true (Track_sort t)
     = Track_get_active_length false t) ->
  Music_get_length false self = Ok v ->
  Music_get_length true (Music_sort self) = Ok v' ->
  v' <= v.
Proof.
  intros Htr Hv Hv'.
  destruct (get_length_unsorted_reads self v Hv)
    as (a & m1 & m2 & m3 & m4 & m5 & Ha & H1 & H2 & H3 & H4 & H5 & ->).
  revert Hv'.
  unfold Music_get_length, Music_get_active_length, Music_sort in *; simpl.
  rewrite comprehension_map, (comprehension_ext _ _ _ Htr), Ha; cbn [bind].
  destruct (py_last (list_sort TimeSignature_start _)) as [x1|e] eqn:L1;
    cbn [bind]; [|discriminate].
  destruct (py_last (list_sort KeySignature_time _)) as [x2|e] eqn:L2;
    cbn [bind]; [|discriminate].
  destruct (py_last (list_sort Tempo_time _)) as [x3|e] eqn:L3;
    cbn [bind]; [|discriminate].
  destruct (py_last (list_sort Lyric_time _)) as [x4|e] eqn:L4;
    cbn [bind]; [|discriminate].
  destruct (py_last (list_sort Annotation_time _)) as [x5|e] eqn:L5;
    cbn [bind]; [|discriminate].
  intros Hv'. injection Hv' as <-.
  pose proof (last_of_sorted_bounded _ _ _ _ _ L1 H1).
  pose proof (last_of_sorted_bounded _ _ _ _ _ L2 H2).
  pose proof (last_of_sorted_bounded _ _ _ _ _ L3 H3).
  pose proof (last_of_sorted_bounded _ _ _ _ _ L4 H4).
  pose proof (last_of_sorted_bounded _ _ _ _ _ L5 H5).
  unfold py_max; simpl. lia.
Qed.

(** ** [append], then [get_length] *)

Lemma py_max_raise (a m1 m2 m3 m4 m5 t : Z) :
  py_max a [Z.max m1 t; m2; m3; m4; m5] = Z.max (py_max a [m1; m2; m3; m4; m5]) t
  /\
  py_max a [m1; Z.max m2 t; m3; m4; m5] = Z.max (py_max a [m1; m2; m3; m4; m5]) t
  /\
  py_max a [m1; m2; Z.max m3 t; m4; m5] = Z.max (py_max a [m1; m2; m3; m4; m5]) t
  /\
  py_max a [m1; m2; m3; Z.max m4 t; m5] = Z.max (py_max a [m1; m2; m3; m4; m5]) t
  /\
  py_max a [m1; m2; m3; m4; Z.max m5 t] = Z.max (py_max a [m1; m2; m3; m4; m5]) t
  /\
  py_max (Z.max a t) [m1; m2; m3; m4; m5] = Z.max (py_max a [m1; m2; m3; m4; m5]) t.
Proof. unfold py_max; simpl. repeat split; lia. Qed.

(** Appending an event at time [t] to a container on which
    [get_length(is_sorted=False)] returns [v] makes it return the greater
    of [v] and [t]; appending a track whose active length is [t] does the
    same.  The event is the object as an instance of the first of the six
    classes it matches. *)
Theorem append_extends_length (obj : PyObj) (self : Music) (v : Z) :
  Music_get_length false self = Ok v ->
  (forall x, first_match obj = Some KTimeSignature ->
     as_TimeSignature obj = Some x ->
     Music_get_length false (fst (Music_append obj self))
     = Ok (Z.max v (TimeSignature_time x))) /\
  (forall x, first_match obj = Some KKeySignature ->
     as_KeySignature obj = Some x ->
     Music_get_length false (fst (Music_append obj self))
     = Ok (Z.max v (KeySignature_time x))) /\
  (forall x, first_match obj = Some KTempo -> as_Tempo obj = Some x ->
     Music_get_length false (fst (Music_append obj self))
     = Ok (Z.max v (Tempo_time x))) /\
  (forall x, first_match obj = Some KLyric -> as_Lyric obj = Some x ->
     Music_get_length false (fst (Music_append obj self))
     = Ok (Z.max v (Lyric_time x))) /\
  (forall x, first_match obj = Some KAnnotation ->
     as_Annotation obj = Some x ->
     Music_get_length false (fst (Music_append obj self))
     = Ok (Z.max v (Annotation_time x))) /\
  (forall x t, first_match obj = Some KTrack -> as_Track obj = Some x ->
     Track_get_active_length false x = Ok t ->
     Music_get_length false (fst (Music_append obj self)) = Ok (Z.max v t)).
Proof.
  intros Hv.
  destruct (get_length_unsorted_reads self v Hv)
    as (a & m1 & m2 & m3 & m4 & m5 & Ha & H1 & H2 & H3 & H4 & H5 & ->).
  destruct (append_stores obj self) as (S1 & S2 & S3 & S4 & S5 & S6 & _).
  repeat match goal with |- _ /\ _ => split end;
    intros x;
    [intros Hf Hs; rewrite (S1 x Hf Hs)
    |intros Hf Hs; rewrite (S2 x Hf Hs)
    |intros Hf Hs; rewrite (S3 x Hf Hs)
    |intros Hf Hs; rewrite (S4 x Hf Hs)
    |intros Hf Hs; rewrite (S5 x Hf Hs)
    |intros t Hf Hs Ht; rewrite (S6 x Hf Hs)];
    cbn [fst]; unfold Music_get_length;
    unfold Music_get_active_length in *; cbn.
  - rewrite Ha, (py_max_list_app _ _ x _ H1), H2, H3, H4, H5; cbn [bind].
    f_equal. apply py_max_raise.
  - rewrite Ha, H1, (py_max_list_app _ _ x _ H2), H3, H4, H5; cbn [bind].
    f_equal. apply py_max_raise.
  - rewrite Ha, H1, H2, (py_max_list_app _ _ x _ H3), H4, H5; cbn [bind].
    f_equal. apply py_max_raise.
  - rewrite Ha, H1, H2, H3, (py_max_list_app _ _ x _ H4), H5; cbn [bind].
    f_equal. apply py_max_raise.
  - rewrite Ha, H1, H2, H3, H4, (py_max_list_app _ _ x _ H5); cbn [bind].
    f_equal. apply py_max_raise.
  - destruct (comprehension _ (tracks self)) as [lens|e] eqn:Hl;
      cbn [bind] in Ha; [|discriminate Ha].
    rewrite (comprehension_app _ _ _ _ _ Hl Ht); cbn [bind].
    assert (Hmax : py_max_list (lens ++ [t]) = Ok (Z.max a t)).
    { rewrite <- (map_id lens) in Ha.
      apply (py_max_list_app (fun z => z) lens t a) in Ha.
      now rewrite map_id in Ha. }
    rewrite Hmax, H1, H2, H3, H4, H5; cbn [bind].
    f_equal. apply py_max_raise.
Qed.

(** ** [to], further *)

Lemma in_tuple_In (x : string) (t : list string) :
  in_tuple x t = true <-> In x t.
Proof.
  unfold in_tuple. rewrite existsb_exists. split.
  - intros [y [Hin Heq]]. apply String.eqb_eq in Heq. now subst.
  - intros Hin. exists x. split; [exact Hin|apply String.eqb_refl].
Qed.

Lemma in_tuple_not_In (x : string) (t : list string) :
  ~ In x t -> in_tuple x t = false.
Proof.
  intros H. destruct (in_tuple x t) eqn:Hx; [|reflexivity].
  now apply in_tuple_In in Hx.
Qed.

Lemma in_str_no_part (x s : string) :
  (forall before after, s <> (before ++ x ++ after)%string) ->
  in_str x s = false.
Proof.
  intros H. destruct (in_str x s) eqn:Hx; [|reflexivity].
  apply in_str_spec in Hx as [before [after Hs]]. now elim (H before after).
Qed.

(** [to] rejects a selector exactly as far as its lower-case form is none
    of the six representation names and is no part of the text
    ["pretty_midi"] nor of the text ["pypianoroll"]: the [ValueError] then
    names the selector as it was given, upper case included. *)
Theorem to_raises_unless_part_of_name (target : string) (self : Music) :
  ~ In (str_lower target)
      ["event"; "event-based"; "note"; "note-based"; "pianoroll";
       "piano-roll"] ->
  (forall before after,
     "pretty_midi" <> (before ++ str_lower target ++ after)%string) ->
  (forall before after,
     "pypianoroll" <> (before ++ str_lower target ++ after)%string) ->
  Music_to target self
  = Raise (ValueError ("Unsupported target : " ++ target ++ ".")).
Proof.
  intros H1 H2 H3. unfold Music_to.
  now rewrite (in_tuple_not_In _ _ H1), (in_str_no_part _ _ H2),
    (in_str_no_part _ _ H3).
Qed.

(** A selector whose lower-case form is none of the six representation
    names and is a part of the text ["pretty_midi"], the empty selector
    included, is answered by [to_pretty_midi]; one that is a part of
    ["pypianoroll"] and not of ["pretty_midi"] is answered by
    [to_pypianoroll]. *)
Theorem to_accepts_part_of_name (target : string) (self : Music) :
  ~ In (str_lower target)
      ["event"; "event-based"; "note"; "note-based"; "pianoroll";
       "piano-roll"] ->
  ((exists before after,
      "pretty_midi" = (before ++ str_lower target ++ after)%string) ->
   Music_to target self = return_ VPrettyMIDI (to_pretty_midi self)) /\
  ((forall before after,
      "pretty_midi" <> (before ++ str_lower target ++ after)%string) ->
   (exists before after,
      "pypianoroll" = (before ++ str_lower target ++ after)%string) ->
   Music_to target self = return_ VMultitrack (to_pypianoroll self)).
Proof.
  intros H1. unfold Music_to. rewrite (in_tuple_not_In _ _ H1). split.
  - intros H2. apply in_str_spec in H2. now rewrite H2.
  - intros H2 H3. apply in_str_spec in H3.
    now rewrite (in_str_no_part _ _ H2), H3.
Qed.

(** ** [reset] and the bulk mutators *)

(** [reset()] leaves the container [Music(downbeats=self.downbeats)]
    builds, so two containers with the same [downbeats] are the same
    container after it; it is idempotent; on a container just reset,
    [sort], [transpose] and [clip] change nothing, and [get_length] and
    [get_active_length] raise in both modes. *)
Theorem reset_then_methods (self : Music) :
  Music_reset self
  = Music_init None None None None None (Some (downbeats self)) None None None
  /\
  (forall other : Music,
     downbeats other = downbeats self -> Music_reset other = Music_reset self)
  /\
  Music_reset (Music_reset self) = Music_reset self /\
  Music_sort (Music_reset self) = Music_reset self /\
  (forall n, Music_transpose n (Music_reset self) = Music_reset self) /\
  (forall lower upper,
     Music_clip lower upper (Music_reset self) = Music_reset self) /\
  (forall is_sorted,
     Music_get_active_length is_sorted (Music_reset self)
     = Raise (ValueError "max() arg is an empty sequence") /\
     Music_get_length is_sorted (Music_reset self)
     = Raise (ValueError "max() arg is an empty sequence")).
Proof.
  split; [reflexivity|]. split.
  - intros other Hd. unfold Music_reset. now rewrite Hd.
  - repeat split. destruct is_sorted; reflexivity.
Qed.

(** None of [remove_invalid], [sort], [transpose] and [clip] touches
    [meta_data], [timing] or [downbeats], and none adds or removes a
    track; [transpose] and [clip] leave the five time-stamped sequences as
    they are too. *)
Theorem bulk_mutators_keep_frame (self : Music) (n : Z)
  (lower upper : option Z) :
  let same_frame (after : Music) :=
    meta_data after = meta_data self /\ timing after = timing self /\
    downbeats after = downbeats self /\
    List.length (tracks after) = List.length (tracks self) in
  let same_sequences (after : Music) :=
    time_signatures after = time_signatures self /\
    key_signatures after = key_signatures self /\
    tempos after = tempos self /\ lyrics after = lyrics self /\
    annotations after = annotations self in
  same_frame (Music_remove_invalid self) /\
  same_frame (Music_sort self) /\
  same_frame (Music_transpose n self) /\
  same_frame (Music_clip lower upper self) /\
  same_sequences (Music_transpose n self) /\
  same_sequences (Music_clip lower upper self).
Proof.
  cbv zeta.
  unfold Music_remove_invalid, Music_sort, Music_transpose, Music_clip,
    with_tracks; simpl.
  rewrite !length_map. repeat split.
Qed.

(** ** [validate] *)

(** [validate()] tests the class of [meta_data], then the class of
    [timing], before it validates anything: a [meta_data] of another class
    gives the [TypeError] about [meta_data], and a [timing] of another
    class under a [meta_data] of the right class gives the [TypeError]
    about [timing], whatever the validations would give.  It returns
    exactly when both classes are right and the eight validations return.
    It never reads [downbeats]. *)
Theorem validate_order (self : Music) :
  (issubclass (MetaData_class (meta_data self)) KMetaData = false ->
   Music_validate self
   = Raise (TypeError "`meta_data` must be of type MetaData.")) /\
  (issubclass (MetaData_class (meta_data self)) KMetaData = true ->
   issubclass (TimingInfo_class (timing self)) KTimingInfo = false ->
   Music_validate self
   = Raise (TypeError "`timing` must be of type TimingInfo.")) /\
  (Music_validate self = Ok tt <->
   issubclass (MetaData_class (meta_data self)) KMetaData = true /\
   issubclass (TimingInfo_class (timing self)) KTimingInfo = true /\
   MetaData_validate (meta_data self) = Ok tt /\
   TimingInfo_validate (timing self) = Ok tt /\
   validate_list TimeSignature (time_signatures self) = Ok tt /\
   validate_list KeySignature (key_signatures self) = Ok tt /\
   validate_list Tempo (tempos self) = Ok tt /\
   validate_list Lyric (lyrics self) = Ok tt /\
   validate_list Annotation (annotations self) = Ok tt /\
   validate_list Track (tracks self) = Ok tt) /\
  (forall other_downbeats,
     Music_validate
       (mkMusic (timing self) (time_signatures self) (key_signatures self)
          (tempos self) other_downbeats (lyrics self) (annotations self)
          (tracks self) (meta_data self))
     = Music_validate self).
Proof.
  unfold Music_validate; simpl.
  split; [intros ->; reflexivity|].
  split; [intros -> ->; reflexivity|].
  split; [|reflexivity].
  destruct (issubclass (MetaData_class _) KMetaData); simpl;
    [|split; [discriminate|intros [H _]; discriminate H]].
  destruct (issubclass (TimingInfo_class _) KTimingInfo); simpl;
    [|split; [discriminate|intros (_ & H & _); discriminate H]].
  destruct (MetaData_validate _) as [[]|e]; cbn [bind];
    [|split; [discriminate|intros (_ & _ & H & _); discriminate H]].
  destruct (TimingInfo_validate _) as [[]|e]; cbn [bind];
    [|split; [discriminate|intros (_ & _ & _ & H & _); discriminate H]].
  destruct (validate_list TimeSignature _) as [[]|e]; cbn [bind];
    [|split; [discriminate|intros (_ & _ & _ & _ & H & _); discriminate H]].
  destruct (validate_list KeySignature _) as [[]|e]; cbn [bind];
    [|split; [discriminate
             |intros (_ & _ & _ & _ & _ & H & _); discriminate H]].
  destruct (validate_list Tempo _) as [[]|e]; cbn [bind];
    [|split; [discriminate
             |intros (_ & _ & _ & _ & _ & _ & H & _); discriminate H]].
  destruct (validate_list Lyric _) as [[]|e]; cbn [bind];
    [|split; [discriminate
             |intros (_ & _ & _ & _ & _ & _ & _ & H & _); discriminate H]].
  destruct (validate_list Annotation _) as [[]|e]; cbn [bind];
    [|split; [discriminate
             |intros (_ & _ & _ & _ & _ & _ & _ & _ & H & _); discriminate H]].
  split; [intros H; repeat split; exact H|].
  intros (_ & _ & _ & _ & _ & _ & _ & _ & _ & H). exact H.
Qed.

End MoreFacts.

(** ** The modelled tracks, further *)

Section MoreModelledTrackFacts.

Context {E : Entities} {N : NoteAPI}.

Lemma TrackModel_sort_idem (t : TrackModel) :
  TrackModel_sort (TrackModel_sort t) = TrackModel_sort t.
Proof.
  unfold TrackModel_sort; simpl. now rewrite !list_sort_idem.
Qed.

Lemma TrackModel_length_after_sort (is_sorted : bool) (t : TrackModel) :
  TrackModel_get_active_length is_sorted (TrackModel_sort t)
  = TrackModel_get_active_length false t.
Proof.
  unfold TrackModel_get_active_length, TrackModel_sort; simpl.
  apply py_max_list_perm, Permutation_map, Permutation_sym, list_sort_perm.
Qed.

End MoreModelledTrackFacts.

(** ** The further properties on concrete containers *)

Lemma sort_idempotent_witness :
  Music_sort (Music_sort two_signatures) = Music_sort two_signatures.
Proof.
  apply (sort_idempotent two_signatures).
  intros t _. apply (@TrackModel_sort_idem sample_entities t).
Defined.

Lemma get_length_unsorted_after_sort_witness :
  Music_get_length false (Music_sort two_signatures)
  = Music_get_length false two_signatures.
Proof.
  apply (get_length_unsorted_after_sort two_signatures).
  intros t _. apply (@TrackModel_length_after_sort sample_entities false t).
Defined.

Lemma get_length_sorted_agrees_witness :
  Music_get_length true (Music_sort aligned_music)
  = Music_get_length false aligned_music.
Proof.
  apply (get_length_sorted_agrees aligned_music); try discriminate.
  - intros x [<-|[<-|[]]]; reflexivity.
  - intros t _. apply (@TrackModel_length_after_sort sample_entities true t).
Defined.

Lemma get_length_is_maximum_witness :
  Forall (fun x => Tempo_time x <= 9) (tempos two_signatures).
Proof.
  destruct (get_length_is_maximum two_signatures 9 eq_refl)
    as (active & _ & _ & _ & _ & Htempos & _).
  exact Htempos.
Defined.

Lemma get_length_sorted_when_ordered_witness :
  Music_get_length true ordered_music = Music_get_length false ordered_music.
Proof.
  apply (get_length_sorted_when_ordered ordered_music);
    try discriminate;
    try (intros t _; reflexivity);
    unfold non_decreasing; simpl;
    repeat (constructor; try (simpl; lia)).
Defined.

Lemma length_queries_need_a_track_witness :
  Music_get_active_length true empty_music
  = Raise (ValueError "max() arg is an empty sequence") /\
  Music_get_length true empty_music
  = Raise (ValueError "max() arg is an empty sequence").
Proof. apply (length_queries_need_a_track true empty_music). reflexivity. Defined.

Lemma get_length_modes_fail_differently_witness :
  Music_get_length false (with_tempos [] two_signatures)
  = Raise (ValueError "max() arg is an empty sequence") /\
  Music_get_length true (with_tempos [] two_signatures)
  = Raise (IndexError "list index out of range").
Proof.
  apply (get_length_modes_fail_differently
           (with_tempos [] two_signatures) 4 4); [reflexivity|reflexivity|].
  right; right; left. reflexivity.
Defined.

Lemma sorted_length_never_exceeds_witness : 5 <= 9.
Proof.
  apply (sorted_length_never_exceeds two_signatures 9 5);
    [|reflexivity|reflexivity].
  intros t _. apply (@TrackModel_length_after_sort sample_entities true t).
Defined.

Lemma append_extends_length_witness :
  Music_get_length false (fst (Music_append lyric_tempo two_signatures))
  = Ok (Z.max 9 7).
Proof.
  destruct (append_extends_length lyric_tempo two_signatures 9 eq_refl)
    as (_ & _ & Htempo & _).
  apply (Htempo 7); reflexivity.
Defined.

Lemma to_raises_unless_part_of_name_witness :
  @Music_to _ _ sample_converters "MP3" two_signatures
  = Raise (ValueError "Unsupported target : MP3.").
Proof.
  apply (@to_raises_unless_part_of_name _ _ sample_converters "MP3"
           two_signatures).
  - simpl. intros H.
    repeat (destruct H as [H|H]; [discriminate H|]). exact H.
  - intros before after H.
    assert (Hin : in_str "mp3" "pretty_midi" = true)
      by (apply in_str_spec; now exists before, after).
    discriminate Hin.
  - intros before after H.
    assert (Hin : in_str "mp3" "pypianoroll" = true)
      by (apply in_str_spec; now exists before, after).
    discriminate Hin.
Defined.

Lemma to_accepts_part_of_name_witness :
  @Music_to _ _ sample_converters "MIDI" two_signatures
  = Ok (@VPrettyMIDI _ _ sample_converters "PrettyMIDI").
Proof.
  assert (Hnot : ~ In (str_lower "MIDI")
            ["event"; "event-based"; "note"; "note-based"; "pianoroll";
             "piano-roll"]).
  { simpl. intros H.
    repeat (destruct H as [H|H]; [discriminate H|]). exact H. }
  destruct (@to_accepts_part_of_name _ _ sample_converters "MIDI"
              two_signatures Hnot) as [Hmidi _].
  rewrite Hmidi; [reflexivity|]. now exists "pretty_", "".
Defined.
